(** * openid: a shallow embedding of [openid.go]

    The package has two entry points, [RedirectURI] (identifier
    normalisation, Yadis discovery, XRDS extraction, redirect URL) and
    [Validate] (direct verification of an assertion).  Go strings are byte
    sequences and are modelled by [string]; Go maps by [gmap]; the network,
    the XML decoder and the HTML parser are parameters collected in a
    [World]; I/O is threaded through an explicit [State] that records every
    request, every response body handed out and every body closed. *)

From Stdlib Require Import ZArith Ascii String List Bool Lia.
From stdpp Require Import base option list gmap strings sorting fin_maps.

Local Open Scope string_scope.
Local Open Scope Z_scope.

#[local] Arguments String.append !_ _ : simpl nomatch.

(** ** Package [strings] *)

Module strings.

(** [len(s)] as a Go [int]. *)
Definition len (s : string) : Z := Z.of_nat (String.length s).

(** [s[i:]] for [0 <= i <= len(s)]. *)
Fixpoint slice_from (s : string) (i : nat) {struct i} : string :=
  match i, s with
  | O, _ => s
  | S i', String _ s' => slice_from s' i'
  | S _, EmptyString => EmptyString
  end.

(** [s[:i]] for [0 <= i <= len(s)]. *)
Fixpoint slice_to (s : string) (i : nat) {struct i} : string :=
  match i, s with
  | O, _ => EmptyString
  | S i', String c s' => String c (slice_to s' i')
  | S _, EmptyString => EmptyString
  end.

(** [strings.HasPrefix(s, prefix)]. *)
Fixpoint HasPrefix (s prefix : string) {struct prefix} : bool :=
  match prefix, s with
  | EmptyString, _ => true
  | String p prefix', String c s' =>
      if Ascii.eqb c p then HasPrefix s' prefix' else false
  | String _ _, EmptyString => false
  end.

(** [strings.Index(s, substr)]: the index of the first instance of
    [substr] in [s], or [-1]. *)
Fixpoint Index (s substr : string) : Z :=
  if HasPrefix s substr then 0
  else match s with
       | EmptyString => -1
       | String _ s' =>
           let i := Index s' substr in
           if i =? -1 then -1 else i + 1
       end.

(** [strings.Contains(s, substr)] is [Index(s, substr) >= 0]. *)
Definition Contains (s substr : string) : bool := 0 <=? Index s substr.

(** [strings.IndexByte]/[strings.ContainsRune] for a rune below
    [utf8.RuneSelf], which is a single byte of the string. *)
Definition ContainsRune (s : string) (r : ascii) : bool :=
  0 <=? Index s (String r EmptyString).

(** The loop of [genSplit] for a non-empty separator: at most [n] cuts,
    each at the first instance of [sep] in what remains. *)
Fixpoint genSplit (n : nat) (s sep : string) : list string :=
  match n with
  | O => [s]
  | S n' =>
      let m := Index s sep in
      if m <? 0 then [s]
      else slice_to s (Z.to_nat m)
             :: genSplit n' (slice_from s (Z.to_nat (m + len sep))) sep
  end.

(** [strings.Split(s, sep)], [sep] non-empty: [Count(s, sep)] cuts, and
    the count is at most [len(s)], after which [Index] finds nothing. *)
Definition Split (s sep : string) : list string :=
  genSplit (String.length s) s sep.

(** [strings.SplitN(s, sep, 2)], [sep] non-empty: at most one cut. *)
Definition SplitN2 (s sep : string) : list string :=
  genSplit 1 s sep.

End strings.

(** ** [keyValueForm] *)

(** [split[0]], [split[1]] of a two-element slice; [None] stands for the
    index-out-of-range panic, which the [ContainsRune] guard excludes. *)
Definition index01 (split : list string) : option (string * string) :=
  match split with
  | k :: v :: _ => Some (k, v)
  | _ => None
  end.

(** The body of the [range] loop of [keyValueForm]. *)
Definition keyValueForm_step (o : gmap string string) (v : string)
  : gmap string string :=
  if strings.ContainsRune v ":"%char then
    match index01 (strings.SplitN2 v ":") with
    | Some (k, x) => <[k := x]> o
    | None => o
    end
  else o.

Definition keyValueForm (corpus : string) : gmap string string :=
  fold_left keyValueForm_step (strings.Split corpus (String "010"%char "")) ∅.

(** ** Package [net/url] *)

Module url.

(** [shouldEscape(c, encodeQueryComponent)]: only the unreserved
    characters of RFC 3986 pass unescaped. *)
Definition shouldEscape (c : ascii) : bool :=
  let n := Z.of_N (N_of_ascii c) in
  if ((97 <=? n) && (n <=? 122)) || ((65 <=? n) && (n <=? 90))
     || ((48 <=? n) && (n <=? 57))
  then false
  else match c with
       | "-"%char | "_"%char | "."%char | "~"%char => false
       | _ => true
       end.

(** ["0123456789ABCDEF"[n]] for a nibble [n]. *)
Definition upperhex (n : Z) : ascii :=
  if n <? 10 then ascii_of_N (Z.to_N (48 + n))
  else ascii_of_N (Z.to_N (55 + n)).

(** [url.QueryEscape(s)]: a space becomes [+], any other byte that
    [shouldEscape] becomes [%XX]. *)
Fixpoint QueryEscape (s : string) : string :=
  match s with
  | EmptyString => EmptyString
  | String c s' =>
      if Ascii.eqb c " "%char then String "+"%char (QueryEscape s')
      else if shouldEscape c then
        let n := Z.of_N (N_of_ascii c) in
        String "%"%char
          (String (upperhex (Z.shiftr n 4))
             (String (upperhex (Z.land n 15)) (QueryEscape s')))
      else String c (QueryEscape s')
  end.

(** [url.Values] and [http.Header] are both [map[string][]string]. *)
Abbreviation Values := (gmap string (list string)).

(** [v.Get(key)]: the first value of [key], or the empty string. *)
Definition Get (v : Values) (key : string) : string :=
  match v !! key with
  | Some (x :: _) => x
  | _ => ""
  end.

(** [v.Set(key, value)] replaces whatever [key] held. *)
Definition Set_ (v : Values) (key value : string) : Values :=
  <[key := [value]]> v.

(** Go compares strings byte by byte. *)
Definition string_le (s t : string) : Prop := String.leb s t = true.

#[export] Instance string_le_dec s t : Decision (string_le s t).
Proof. unfold string_le. apply _. Defined.

(** The keys of [v], as [slices.Sort] leaves them. *)
Definition sorted_keys (v : Values) : list string :=
  merge_sort string_le (map fst (map_to_list v)).

(** One [key=value] pair written to the buffer of [Encode]. *)
Definition write_pair (keyEscaped : string) (buf x : string) : string :=
  (if 0 <? strings.len buf then buf ++ "&" else buf)
    ++ keyEscaped ++ "=" ++ QueryEscape x.

(** [v.Encode()]: ["bar=baz&foo=quux"], sorted by key. *)
Definition Encode (v : Values) : string :=
  fold_left
    (fun buf k =>
       fold_left (write_pair (QueryEscape k)) (default [] (v !! k)) buf)
    (sorted_keys v) "".

End url.

(** ** Package [unicode/utf8], as [range] over a string uses it *)

Module utf8.

Definition RuneError : Z := 65533.

(** A byte of a string as a number, which is also [rune(c)]. *)
Definition byte (c : ascii) : Z := Z.of_N (N_of_ascii c).

Definition between (lo hi b : Z) : bool := (lo <=? b) && (b <=? hi).

(** The tables [first] and [acceptRanges] for a first byte above [0x7F]:
    the length of the sequence and the range of its second byte. *)
Definition first (s0 : Z) : option (Z * Z * Z) :=
  if between 194 223 s0 then Some (2, 128, 191)
  else if s0 =? 224 then Some (3, 160, 191)
  else if between 225 236 s0 then Some (3, 128, 191)
  else if s0 =? 237 then Some (3, 128, 159)
  else if between 238 239 s0 then Some (3, 128, 191)
  else if s0 =? 240 then Some (4, 144, 191)
  else if between 241 243 s0 then Some (4, 128, 191)
  else if s0 =? 244 then Some (4, 128, 143)
  else None.

(** [utf8.DecodeRuneInString]: the rune at the head of [s] and its width;
    an invalid or truncated sequence is [RuneError] of width 1. *)
Definition DecodeRune (s : list Z) : Z * nat :=
  match s with
  | [] => (RuneError, O)
  | s0 :: t =>
      if s0 <? 128 then (s0, 1%nat)
      else
        match first s0, t with
        | Some (sz, lo, hi), s1 :: t1 =>
            if negb (between lo hi s1) then (RuneError, 1%nat)
            else if sz <=? 2
            then (Z.lor (Z.shiftl (Z.land s0 31) 6) (Z.land s1 63), 2%nat)
            else
              match t1 with
              | s2 :: t2 =>
                  if negb (between 128 191 s2) then (RuneError, 1%nat)
                  else if sz <=? 3
                  then (Z.lor (Z.shiftl (Z.land s0 15) 12)
                          (Z.lor (Z.shiftl (Z.land s1 63) 6) (Z.land s2 63)),
                        3%nat)
                  else
                    match t2 with
                    | s3 :: _ =>
                        if negb (between 128 191 s3) then (RuneError, 1%nat)
                        else (Z.lor (Z.shiftl (Z.land s0 7) 18)
                                (Z.lor (Z.shiftl (Z.land s1 63) 12)
                                   (Z.lor (Z.shiftl (Z.land s2 63) 6)
                                      (Z.land s3 63))),
                              4%nat)
                    | [] => (RuneError, 1%nat)
                    end
              | [] => (RuneError, 1%nat)
              end
        | _, _ => (RuneError, 1%nat)
        end
  end.

(** The runes of [s], each step decoding one rune and moving on by its
    width; [n] bounds the number of runes, and [length s] is enough. *)
Fixpoint runes (n : nat) (s : list Z) : list Z :=
  match n, s with
  | S n', _ :: _ =>
      let '(r, width) := DecodeRune s in r :: runes n' (skipn width s)
  | _, _ => []
  end.

(** The values of [v] in [for _, v := range b]. *)
Definition range (b : string) : list Z :=
  runes (String.length b) (map byte (list_ascii_of_string b)).

End utf8.

(** ** Errors and panics *)

Inductive validateError : Set :=
| NO_OP_ENDPOINT
| DIFFERING_ENDPOINT
| NS_INCORRECT
| INCORRECT_MODE.

(** A Go [error] value: a [validateError], the result of [errors.New], or
    an error made by a library ([net/http], [net/url], [io], [h5]). *)
Inductive error : Set :=
| ValidateError (v : validateError)
| ErrorsNew (msg : string)
| LibError (msg : string).

(** Run-time panics of the Go runtime. *)
Inductive panic : Set :=
| IndexOutOfRange
| NilDereference
| NilMapAssignment.

(** How a call ends: it returns, it panics, or the model ran out of
    [fuel] (only [discover] recurses without bound). *)
Inductive Res (A : Type) : Type :=
| Ret (a : A)
| Panic (p : panic)
| NoFuel.
Arguments Ret {A} a.
Arguments Panic {A} p.
Arguments NoFuel {A}.

(** ** The world outside the package *)

(** A response body is a handle into the [State]; [ReadAll] on it gives
    [body_data] and [body_err]. *)
Definition ReadCloser := nat.

Record BodyContent := {
  body_data : string;
  body_err : option error
}.

Record Request := {
  Method : string;
  URL : string;
  ReqHeader : list (string * string);
  ReqBody : string
}.

(** What the server side sends back. *)
Record Reply := {
  reply_header : url.Values;
  reply_body : BodyContent
}.

(** [(resp, err)] of [http.Post] and [Client.Do]: [err == nil] comes with
    a response; with an error the response is usually [nil]. *)
Inductive RoundTrip (R : Type) : Type :=
| Ok (resp : R)
| Fail (resp : option R) (e : error).
Arguments Ok {R} resp.
Arguments Fail {R} resp e.

(** [*http.Response], as far as the package looks at it. *)
Record Response := {
  Header : url.Values;
  Body : ReadCloser
}.

(** One [Service] element of the anonymous struct that [getIdentifiers]
    unmarshals into. *)
Record Service := {
  Type_ : string;
  URI : string;
  Priority : N
}.

(** [h5.Node]: the element name, its attributes, its children. *)
Record Attribute := {
  Name : string;
  Value : string
}.

#[warnings="-register-all"]
Inductive Node : Type :=
| mkNode (Data : string) (Attr : list Attribute) (Children : list Node).

Definition Attr (n : Node) : list Attribute :=
  match n with mkNode _ a _ => a end.

(** Everything the package calls but does not define.  [NewRequest_err]
    is the error of [http.NewRequest] for a URL, if any; [Do] is
    [Client.Do], the answer to a request that was built, given the
    requests sent before it; [xml_Unmarshal] gives the [Service] entries
    left in the struct together with the error that the caller drops;
    [yadisGetter_Apply] is the compiled selector
    [meta[http-equiv=X-XRDS-Location]]. *)
Record World := {
  NewRequest_err : string -> option error;
  Do : list Request -> Request -> RoundTrip Reply;
  xml_Unmarshal : string -> list Service * option error;
  h5_Parse : BodyContent -> Node + error;
  yadisGetter_Apply : Node -> list Node
}.

(** What [net/http] gives for [req]: a request that cannot be built is
    not sent and gives [(nil, err)]; one that can is answered by [Do]. *)
Definition http (w : World) (hist : list Request) (req : Request)
  : RoundTrip Reply :=
  match NewRequest_err w (URL req) with
  | Some e => Fail None e
  | None => Do w hist req
  end.

(** The state that a call runs in: the maps that callers share by
    reference, the requests sent, the bodies received (a [ReadCloser] is an
    index into [bodies]) and the bodies closed, oldest first. *)
Record State := {
  heap : gmap nat url.Values;
  requests : list Request;
  bodies : list BodyContent;
  closed : list ReadCloser
}.

Definition M (A : Type) : Type := State -> Res A * State.

#[export] Instance M_ret : MRet M := fun A a st => (Ret a, st).

#[export] Instance M_bind : MBind M := fun A B k m st =>
  match m st with
  | (Ret a, st') => k a st'
  | (Panic p, st') => (Panic p, st')
  | (NoFuel, st') => (NoFuel, st')
  end.

Definition raise {A} (p : panic) : M A := fun st => (Panic p, st).

(** [Client.Do(req)] for a request that was built: it is logged, and the
    body of the response, if there is one, becomes a new open handle. *)
Definition send (w : World) (req : Request) : M (RoundTrip Response) :=
  fun st =>
    let fresh := length (bodies st) in
    let logged r := {| heap := heap st;
                       requests := requests st ++ [req];
                       bodies := bodies st ++ r;
                       closed := closed st |} in
    let open (r : Reply) :=
      {| Header := reply_header r; Body := fresh |} in
    match Do w (requests st) req with
    | Ok r => (Ret (Ok (open r)), logged [reply_body r])
    | Fail (Some r) e => (Ret (Fail (Some (open r)) e), logged [reply_body r])
    | Fail None e => (Ret (Fail None e), logged [])
    end.

(** [http.Post]: the request is built first, and when that fails nothing
    is sent and the result is [(nil, err)]; otherwise [Client.Do]. *)
Definition Post (w : World) (req : Request) : M (RoundTrip Response) :=
  fun st =>
    match NewRequest_err w (URL req) with
    | Some e => (Ret (Fail None e), st)
    | None => send w req st
    end.

(** What reading the body [b] to its end gives. *)
Definition read_body (b : ReadCloser) : M BodyContent :=
  fun st =>
    match bodies st !! b with
    | Some c => (Ret c, st)
    | None =>
        (Ret {| body_data := ""; body_err := Some (LibError "invalid body") |},
         st)
    end.

(** [ioutil.ReadAll(b)]. *)
Definition ReadAll (b : ReadCloser) : M (string * option error) :=
  c ← read_body b; mret (body_data c, body_err c).

(** [b.Close()]. *)
Definition Close (b : ReadCloser) : M unit :=
  fun st =>
    (Ret tt, {| heap := heap st;
                requests := requests st;
                bodies := bodies st;
                closed := closed st ++ [b] |}).

(** The bodies received and not closed. *)
Definition open_bodies (st : State) : list ReadCloser :=
  filter (fun b => b ∉ closed st) (seq 0 (length (bodies st))).

(** A [url.Values] held by reference.  A reference that is not in the heap
    is the [nil] map: reads find nothing, an assignment panics. *)
Definition Values_Get (values : nat) (key : string) : M string :=
  fun st =>
    (Ret (match heap st !! values with
          | Some m => url.Get m key
          | None => ""
          end), st).

Definition Values_Set (values : nat) (key value : string) : M unit :=
  fun st =>
    match heap st !! values with
    | Some m =>
        (Ret tt, {| heap := <[values := url.Set_ m key value]> (heap st);
                    requests := requests st;
                    bodies := bodies st;
                    closed := closed st |})
    | None => (Panic NilMapAssignment, st)
    end.

Definition Values_Encode (values : nat) : M string :=
  fun st =>
    (Ret (match heap st !! values with
          | Some m => url.Encode m
          | None => ""
          end), st).

(** ** The package *)

Definition xri_global_context_symbol : string := "=@+$!(".
Definition xrds_mime : string := "application/xrds+xml".

(** The loop of [runeIs] over the runes that [range b] yields. *)
Fixpoint runeIs_loop (a : Z) (b : list Z) : bool :=
  match b with
  | [] => false
  | v :: b' => if v =? a then true else runeIs_loop a b'
  end.

(** [runeIs(a, b)]: [b] is ranged over rune by rune. *)
Definition runeIs (a : Z) (b : string) : bool :=
  runeIs_loop a (utf8.range b).

(** Lines 73 to 75 of [RedirectURI]: the [xri://] prefix is cut. *)
Definition strip_xri (identifier : string) : string :=
  if strings.HasPrefix identifier "xri://"
  then strings.slice_from identifier 6
  else identifier.

(** Lines 79 to 83, with [c0] the byte [identifier[0]]: an XRI goes
    through the proxy, anything else gets a scheme if it has none. *)
Definition add_scheme (c0 : ascii) (identifier : string) : string :=
  if runeIs (utf8.byte c0) xri_global_context_symbol
  then "http://xri.net/" ++ identifier
  else if negb (strings.HasPrefix identifier "http://")
          && negb (strings.HasPrefix identifier "https://")
       then "http://" ++ identifier
       else identifier.

(** Lines 87 to 89: the fragment step, [identifier = identifier[index:]]. *)
Definition cut_fragment (identifier : string) : string :=
  let index := strings.Index identifier "#" in
  if negb (index =? -1)
  then strings.slice_from identifier (Z.to_nat index)
  else identifier.

(** Lines 72 to 89 of [RedirectURI]: the identifier that is passed to
    [discover].  [identifier[0]] panics on the empty string; the two slice
    expressions are in range whenever they are reached. *)
Definition normalize (identifier : string) : Res string :=
  let identifier := strip_xri identifier in
  match identifier with
  | EmptyString => Panic IndexOutOfRange
  | String c0 _ => Ret (cut_fragment (add_scheme c0 identifier))
  end.

(** The loop of [discoverFromHTMLNode] over [elm.Attr]. *)
Fixpoint content_of (attrs : list Attribute) : string * bool :=
  match attrs with
  | [] => ("", false)
  | v :: attrs' =>
      if String.eqb (Name v) "content" then (Value v, true)
      else content_of attrs'
  end.

Definition discoverFromHTMLNode (w : World) (root : Node) : string * bool :=
  match yadisGetter_Apply w root with
  | elm :: _ => content_of (Attr elm)
  | [] => ("", false)
  end.

(** [discover]: one GET, then the content type decides.  The recursion of
    the source has no bound, hence the [fuel]. *)
Fixpoint discover (fuel : nat) (w : World) (identifier : string)
  : M (option ReadCloser * option error) :=
  match fuel with
  | O => fun st => (NoFuel, st)
  | S fuel' =>
      match NewRequest_err w identifier with
      | Some err => mret (None, Some err)
      | None =>
          r ← send w {| Method := "GET"; URL := identifier;
                        ReqHeader := [("Accept", xrds_mime)];
                        ReqBody := "" |};
          match r with
          | Fail _ err => mret (None, Some err)
          | Ok resp =>
              let contentType := url.Get (Header resp) "Content-Type" in
              let not_located : M (option ReadCloser * option error) :=
                mret (Some (Body resp),
                      Some (ErrorsNew "Could not locate Yadis document!")) in
              if strings.HasPrefix contentType "application/xrds+xml" then
                mret (Some (Body resp), None)
              else
                let h := url.Get (Header resp) "X-Xrds-Location" in
                if negb (String.eqb h "") then discover fuel' w h
                else if strings.HasPrefix contentType "text/html" then
                  c ← read_body (Body resp);
                  match h5_Parse w c with
                  | inr e => mret (None, Some e)
                  | inl tree =>
                      match discoverFromHTMLNode w tree with
                      | (str, true) => discover fuel' w str
                      | (_, false) => not_located
                      end
                  end
                else not_located
          end
      end
  end.

(** The body of the loop of [getIdentifiers]; [Priority] is not read. *)
Definition getIdentifiers_step (acc : string * string) (v : Service)
  : string * string :=
  let '(OP, Claimed) := acc in
  if strings.HasPrefix (Type_ v) "http://specs.openid.net/auth/2.0/server"
  then (URI v, Claimed)
  else if strings.HasPrefix (Type_ v) "http://specs.openid.net/auth/2.0/signon"
  then (OP, URI v)
  else (OP, Claimed).

(** [getIdentifiers]: the deferred [Close] runs on both returns; the error
    of [xml.Unmarshal] is dropped. *)
Definition getIdentifiers (w : World) (xrds : option ReadCloser)
  : M (string * string * option error) :=
  match xrds with
  | None => raise NilDereference
  | Some xrds =>
      '(xmlDoc, e) ← ReadAll xrds;
      match e with
      | Some _ => Close xrds;; mret ("", "", e)
      | None =>
          let services := fst (xml_Unmarshal w xmlDoc) in
          let '(OP, Claimed) :=
            fold_left getIdentifiers_step services ("", "") in
          Close xrds;; mret (OP, Claimed, None)
      end
  end.

(** The map literal of [RedirectURI]. *)
Definition redirect_values (Claimed realm returnPoint : string) : url.Values :=
  list_to_map
    [("openid.claimed_id", [Claimed]);
     ("openid.identity", [Claimed]);
     ("openid.realm", [realm]);
     ("openid.return_to", [realm ++ returnPoint]);
     ("openid.mode", ["checkid_setup"]);
     ("openid.ns", ["http://specs.openid.net/auth/2.0"])].

(** Lines 101 to 116 of [RedirectURI]: the URL made of what discovery
    found. *)
Definition redirect_url (endpoint Claimed realm returnPoint : string) : string :=
  let Claimed :=
    if String.eqb Claimed ""
    then "http://specs.openid.net/auth/2.0/identifier_select"
    else Claimed in
  let endpoint :=
    if negb (strings.Contains endpoint "?")
    then endpoint ++ "?"
    else endpoint ++ "&" in
  endpoint ++ url.Encode (redirect_values Claimed realm returnPoint).

Definition RedirectURI (fuel : nat) (w : World)
    (identifier realm returnPoint : string) : M (string * option error) :=
  fun st =>
    match normalize identifier with
    | Panic p => (Panic p, st)
    | NoFuel => (NoFuel, st)
    | Ret identifier =>
        ('(rdClr, err) ← discover fuel w identifier;
         match err with
         | Some _ => mret ("", err)
         | None =>
             '(endpoint, Claimed, err) ← getIdentifiers w rdClr;
             match err with
             | Some _ => mret ("", err)
             | None =>
                 mret (redirect_url endpoint Claimed realm returnPoint, None)
             end
         end) st
    end.

(** The named results [(grant, id, err)] of [Validate]. *)
Record ValidateResult := {
  grant : bool;
  id : string;
  err : option error
}.

(** [Validate].  [values] is the caller's map.  [defer resp.Body.Close()]
    stands before the test of [err]: it reads [resp.Body] at once, which
    panics when [resp] is [nil], and otherwise closes the body on every
    return that follows. *)
Definition Validate (w : World) (values : nat) : M ValidateResult :=
  endpoint ← Values_Get values "openid.op_endpoint";
  if String.eqb endpoint "" then
    mret {| grant := false; id := "";
            err := Some (ValidateError NO_OP_ENDPOINT) |}
  else
    mode ← Values_Get values "openid.mode";
    if negb (String.eqb mode "id_res") then
      mret {| grant := false; id := "";
              err := Some (ValidateError INCORRECT_MODE) |}
    else
      Values_Set values "openid.mode" "check_authentication";;
      form ← Values_Encode values;
      r ← Post w {| Method := "POST"; URL := endpoint;
                    ReqHeader :=
                      [("Content-Type", "application/x-www-form-urlencoded")];
                    ReqBody := form |};
      match r with
      | Fail None _ => raise NilDereference
      | Fail (Some resp) e =>
          Close (Body resp);; mret {| grant := false; id := ""; err := Some e |}
      | Ok resp =>
          '(body, e) ← ReadAll (Body resp);
          match e with
          | Some _ =>
              Close (Body resp);; mret {| grant := false; id := ""; err := e |}
          | None =>
              let kVs := keyValueForm body in
              if negb (String.eqb (default "" (kVs !! "ns"))
                         "http://specs.openid.net/auth/2.0")
              then
                Close (Body resp);;
                mret {| grant := false; id := "";
                        err := Some (ValidateError NS_INCORRECT) |}
              else
                let grant := String.eqb (default "" (kVs !! "is_valid")) "true" in
                id ← Values_Get values "openid.claimed_id";
                Close (Body resp);;
                mret {| grant := grant; id := id; err := None |}
          end
      end.

(** ** Vocabulary of the statements *)

(** The byte [c] occurs in [s]. *)
Definition has_byte (c : ascii) (s : string) : Prop :=
  In c (list_ascii_of_string s).

Definition newline : string := String "010"%char "".

(** [x] is the line [k:v], cut at its first colon. *)
Definition is_pair (x k v : string) : Prop :=
  x = k ++ ":" ++ v /\ ~ has_byte ":"%char k.

(** The map that [Validate] encodes: [m] with [openid.mode] overwritten. *)
Definition check_authentication (m : url.Values) : url.Values :=
  url.Set_ m "openid.mode" "check_authentication".

(** The request that [Validate] posts for the assertion [m]. *)
Definition verification_request (m : url.Values) : Request :=
  {| Method := "POST"; URL := url.Get m "openid.op_endpoint";
     ReqHeader := [("Content-Type", "application/x-www-form-urlencoded")];
     ReqBody := url.Encode (check_authentication m) |}.

(** [Validate] returning the error [v]. *)
Definition failed (v : validateError) : ValidateResult :=
  {| grant := false; id := ""; err := Some (ValidateError v) |}.

Definition ns_2_0 : string := "http://specs.openid.net/auth/2.0".

(** The state after the POST was answered with [c], read and closed. *)
Definition answered (st : State) (values : nat) (m : url.Values)
    (c : BodyContent) : State :=
  {| heap := <[values := check_authentication m]> (heap st);
     requests := requests st ++ [verification_request m];
     bodies := bodies st ++ [c];
     closed := closed st ++ [length (bodies st)] |}.

(** The state after [openid.mode] was overwritten and nothing sent. *)
Definition overwritten (st : State) (values : nat) (m : url.Values) : State :=
  {| heap := <[values := check_authentication m]> (heap st);
     requests := requests st;
     bodies := bodies st;
     closed := closed st |}.

(** The state after the POST was sent and nothing came back. *)
Definition posted (st : State) (values : nat) (m : url.Values) : State :=
  {| heap := <[values := check_authentication m]> (heap st);
     requests := requests st ++ [verification_request m];
     bodies := bodies st;
     closed := closed st |}.

(** The state after [http.Post] gave no response: the request was sent
    unless it could not be built. *)
Definition tried (w : World) (st : State) (values : nat) (m : url.Values)
  : State :=
  match NewRequest_err w (url.Get m "openid.op_endpoint") with
  | None => posted st values m
  | Some _ => overwritten st values m
  end.

(** Lines 176 to 184 of [Validate]: the answer read off the response
    [body] for the assertion [m]. *)
Definition verdict (m : url.Values) (body : string) : ValidateResult :=
  let kVs := keyValueForm body in
  if negb (String.eqb (default "" (kVs !! "ns")) ns_2_0)
  then failed NS_INCORRECT
  else {| grant := String.eqb (default "" (kVs !! "is_valid")) "true";
          id := url.Get m "openid.claimed_id";
          err := None |}.

(** ** Worked inputs *)

(** A world where nothing answers. *)
Definition w_down : World :=
  {| NewRequest_err := fun _ => None;
     Do := fun _ _ => Fail None (LibError "dial tcp: connection refused");
     xml_Unmarshal := fun _ => ([], Some (LibError "EOF"));
     h5_Parse := fun _ => inr (LibError "EOF");
     yadisGetter_Apply := fun _ => [] |}.

(** A world whose operator confirms every assertion. *)
Definition w_confirm : World :=
  {| NewRequest_err := fun _ => None;
     Do := fun _ _ =>
       Ok {| reply_header := ∅;
             reply_body :=
               {| body_data := "ns:http://specs.openid.net/auth/2.0" ++ newline
                               ++ "is_valid:true" ++ newline;
                  body_err := None |} |};
     xml_Unmarshal := fun _ => ([], Some (LibError "EOF"));
     h5_Parse := fun _ => inr (LibError "EOF");
     yadisGetter_Apply := fun _ => [] |}.

(** An assertion as the operator sends it back. *)
Definition assertion : url.Values :=
  list_to_map
    [("openid.op_endpoint", ["https://op.example/verify"]);
     ("openid.mode", ["id_res"]);
     ("openid.claimed_id", ["https://user.example/id"])].

(** The same without [openid.op_endpoint], and with another mode. *)
Definition assertion_no_endpoint : url.Values :=
  delete "openid.op_endpoint" assertion.

Definition assertion_cancel : url.Values :=
  <["openid.mode" := ["cancel"]]> assertion.

(** A fresh state in which the caller holds [m] at reference [0]. *)
Definition holding (m : url.Values) : State :=
  {| heap := {[ 0%nat := m ]}; requests := []; bodies := []; closed := [] |}.

(** A Yadis chain of two hops: the identifier answers with an
    [X-Xrds-Location] header, the location answers with the XRDS document.
    The document lists two operator endpoints and two sign-on identities,
    the earlier ones with the better (lower) priority. *)
Definition xrds_services : list Service :=
  [ {| Type_ := "http://specs.openid.net/auth/2.0/server";
       URI := "https://op.example/first"; Priority := 0 |};
    {| Type_ := "http://specs.openid.net/auth/2.0/signon";
       URI := "https://user.example/first"; Priority := 0 |};
    {| Type_ := "http://specs.openid.net/auth/2.0/server";
       URI := "https://op.example/auth"; Priority := 10 |};
    {| Type_ := "http://specs.openid.net/auth/2.0/signon";
       URI := "https://user.example/id"; Priority := 10 |} ].

Definition w_yadis : World :=
  {| NewRequest_err := fun _ => None;
     Do := fun _ req =>
       if String.eqb (URL req) "http://user.example" then
         Ok {| reply_header :=
                 list_to_map
                   [("Content-Type", ["text/plain"]);
                    ("X-Xrds-Location", ["http://user.example/xrds"])];
               reply_body := {| body_data := "see header"; body_err := None |} |}
       else if String.eqb (URL req) "http://user.example/xrds" then
         Ok {| reply_header :=
                 list_to_map [("Content-Type", ["application/xrds+xml"])];
               reply_body := {| body_data := "<xrds>"; body_err := None |} |}
       else Fail None (LibError "no such host");
     xml_Unmarshal := fun _ => (xrds_services, None);
     h5_Parse := fun _ => inr (LibError "EOF");
     yadisGetter_Apply := fun _ => [] |}.

(** A world whose pages are HTML that the parser rejects. *)
Definition w_broken_html : World :=
  {| NewRequest_err := fun _ => None;
     Do := fun _ _ =>
       Ok {| reply_header := list_to_map [("Content-Type", ["text/html"])];
             reply_body := {| body_data := "<html"; body_err := None |} |};
     xml_Unmarshal := fun _ => ([], Some (LibError "EOF"));
     h5_Parse := fun _ => inr (LibError "unexpected EOF");
     yadisGetter_Apply := fun _ => [] |}.




(** A state with nothing in it. *)
Definition st0 : State :=
  {| heap := ∅; requests := []; bodies := []; closed := [] |}.

(** [s] starts with [p]. *)
Definition starts_with (p s : string) : Prop := exists r, s = p ++ r.

Definition is_server (v : Service) : Prop :=
  starts_with "http://specs.openid.net/auth/2.0/server" (Type_ v).

Definition is_signon (v : Service) : Prop :=
  starts_with "http://specs.openid.net/auth/2.0/signon" (Type_ v).

Definition identifier_select : string :=
  "http://specs.openid.net/auth/2.0/identifier_select".

(** The query string of the redirect URL for the claimed identity [c]:
    six [key=value] pairs joined by [&]. *)
Definition redirect_query (c realm returnPoint : string) : string :=
  "openid.claimed_id" ++ "=" ++ url.QueryEscape c ++ "&" ++
  "openid.identity" ++ "=" ++ url.QueryEscape c ++ "&" ++
  "openid.mode" ++ "=" ++ "checkid_setup" ++ "&" ++
  "openid.ns" ++ "=" ++ "http%3A%2F%2Fspecs.openid.net%2Fauth%2F2.0" ++ "&" ++
  "openid.realm" ++ "=" ++ url.QueryEscape realm ++ "&" ++
  "openid.return_to" ++ "=" ++ url.QueryEscape (realm ++ returnPoint).

(** A state that holds one open body, the XRDS document of [w_yadis]. *)
Definition st_xrds : State :=
  {| heap := ∅; requests := [];
     bodies := [{| body_data := "<xrds>"; body_err := None |}];
     closed := [] |}.

(** ** [validateError] as the [uint8] it is *)

(** The [iota] value of each constant. *)
Definition validateError_code (v : validateError) : Z :=
  match v with
  | NO_OP_ENDPOINT => 0
  | DIFFERING_ENDPOINT => 1
  | NS_INCORRECT => 2
  | INCORRECT_MODE => 3
  end.

(** [v.String()], for any value of the underlying [uint8]. *)
Definition validateError_String (v : Z) : string :=
  if v =? 0 then "No op endpoint provided."
  else if v =? 1 then "The client gave an endpoint that differed from expected."
  else if v =? 2
  then "ns in verification response was not 'http://specs.openid.net/auth/2.0'"
  else if v =? 3 then "Incorrect mode."
  else "Invalid error.".

(** [v.Error()]. *)
Definition validateError_Error (v : Z) : string :=
  "openid: " ++ validateError_String v.

(** ** More vocabulary *)

(** A request as [discover] makes it. *)
Definition is_discovery_request (r : Request) : Prop :=
  Method r = "GET"
  /\ ReqHeader r = [("Accept", "application/xrds+xml")]
  /\ ReqBody r = "".

(** The GET that [discover] sends for [identifier]. *)
Definition discovery_request (identifier : string) : Request :=
  {| Method := "GET"; URL := identifier;
     ReqHeader := [("Accept", xrds_mime)]; ReqBody := "" |}.

(** A world that accepts every URL and answers every request with a
    non-empty [X-Xrds-Location] and a content type that is not XRDS. *)
Definition always_redirects (w : World) : Prop :=
  (forall u, NewRequest_err w u = None)
  /\ forall hist req,
       exists r, http w hist req = Ok r
                 /\ strings.HasPrefix (url.Get (reply_header r) "Content-Type")
                      "application/xrds+xml" = false
                 /\ url.Get (reply_header r) "X-Xrds-Location" <> "".

(** A server whose Yadis location is itself. *)
Definition w_loop : World :=
  {| NewRequest_err := fun _ => None;
     Do := fun _ _ =>
       Ok {| reply_header :=
               list_to_map [("Content-Type", ["text/plain"]);
                            ("X-Xrds-Location", ["http://loop.example/"])];
             reply_body := {| body_data := ""; body_err := None |} |};
     xml_Unmarshal := fun _ => ([], Some (LibError "EOF"));
     h5_Parse := fun _ => inr (LibError "EOF");
     yadisGetter_Apply := fun _ => [] |}.

(** A world that rejects every URL. *)
Definition w_bad_url : World :=
  {| NewRequest_err := fun _ => Some (LibError "invalid URL escape");
     Do := fun _ _ => Fail None (LibError "unreachable");
     xml_Unmarshal := fun _ => ([], Some (LibError "EOF"));
     h5_Parse := fun _ => inr (LibError "EOF");
     yadisGetter_Apply := fun _ => [] |}.

(** A world whose operator answers with a response and an error at once,
    and one whose answers cannot be read to their end. *)
Definition w_policy : World :=
  {| NewRequest_err := fun _ => None;
     Do := fun _ _ =>
       Fail (Some {| reply_header := ∅;
                     reply_body := {| body_data := ""; body_err := None |} |})
            (LibError "stopped after 10 redirects");
     xml_Unmarshal := fun _ => ([], Some (LibError "EOF"));
     h5_Parse := fun _ => inr (LibError "EOF");
     yadisGetter_Apply := fun _ => [] |}.

Definition w_cut_short : World :=
  {| NewRequest_err := fun _ => None;
     Do := fun _ _ =>
       Ok {| reply_header := ∅;
             reply_body := {| body_data := "ns:http";
                              body_err := Some (LibError "unexpected EOF") |} |};
     xml_Unmarshal := fun _ => ([], Some (LibError "EOF"));
     h5_Parse := fun _ => inr (LibError "EOF");
     yadisGetter_Apply := fun _ => [] |}.

(** A world whose XRDS document does not decode to any [Service]. *)
Definition w_empty_xrds : World :=
  {| NewRequest_err := fun _ => None;
     Do := fun _ _ =>
       Ok {| reply_header :=
               list_to_map [("Content-Type", ["application/xrds+xml"])];
             reply_body := {| body_data := "<xrds"; body_err := None |} |};
     xml_Unmarshal := fun _ => ([], Some (LibError "XML syntax error"));
     h5_Parse := fun _ => inr (LibError "EOF");
     yadisGetter_Apply := fun _ => [] |}.

(** One line [k:v] of a verification response, and the response made of
    the pairs [l], each line ended by a newline. *)
Definition kv_line (p : string * string) : string := fst p ++ ":" ++ snd p.

Definition kv_encode (l : list (string * string)) : string :=
  fold_right (fun p s => kv_line p ++ newline ++ s) "" l.

(** A pair that survives the line format: no newline anywhere, no colon
    in the key. *)
Definition kv_clean (p : string * string) : Prop :=
  ~ has_byte ":"%char (fst p)
  /\ ~ has_byte "010"%char (fst p)
  /\ ~ has_byte "010"%char (snd p).

(** The bytes that [QueryEscape] lets through or writes. *)
Definition query_safe (c : ascii) : Prop :=
  has_byte c
    "abcdefghijklmnopqrstuvwxyzABCDEFGHIJKLMNOPQRSTUVWXYZ0123456789-_.~%+".

(** The state after [req] was sent and the bodies [got] came back (one
    body, or none when there was no response). *)
Definition received (st : State) (req : Request) (got : list BodyContent)
  : State :=
  {| heap := heap st;
     requests := requests st ++ [req];
     bodies := bodies st ++ got;
     closed := closed st |}.

(** The state after the body [b] was closed. *)
Definition closing (st : State) (b : ReadCloser) : State :=
  {| heap := heap st;
     requests := requests st;
     bodies := bodies st;
     closed := closed st ++ [b] |}.

Definition not_located : error :=
  ErrorsNew "Could not locate Yadis document!".

(** An HTML node as [discoverFromHTMLNode] reads it. *)
Definition meta_node (attrs : list Attribute) : Node := mkNode "meta" attrs [].

(** ** Strings *)

Section string_facts.

Variable c : ascii.
Local Abbreviation sep := (String c "").

Lemma Index_char_nil : strings.Index "" sep = -1.
Proof. reflexivity. Qed.

Lemma Index_char_cons a s :
  strings.Index (String a s) sep =
    if Ascii.eqb a c then 0
    else if strings.Index s sep =? -1 then -1
         else strings.Index s sep + 1.
Proof.
  cbn [strings.Index strings.HasPrefix].
  destruct (Ascii.eqb a c); [|reflexivity].
  destruct s; reflexivity.
Qed.

Lemma Index_char_lower s : -1 <= strings.Index s sep.
Proof.
  induction s as [|a s IH]; [rewrite Index_char_nil; lia|].
  rewrite Index_char_cons.
  destruct (Ascii.eqb a c); [lia|].
  destruct (Z.eqb_spec (strings.Index s sep) (-1)); lia.
Qed.

(** [Index] finds nothing exactly when the byte does not occur. *)
Lemma Index_char_none s :
  strings.Index s sep = -1 <-> ~ has_byte c s.
Proof.
  unfold has_byte. induction s as [|a s IH]; cbn [list_ascii_of_string In].
  - rewrite Index_char_nil. tauto.
  - rewrite Index_char_cons. pose proof (Index_char_lower s) as Hlo.
    destruct (Ascii.eqb_spec a c) as [->|Hne].
    + split; [lia | intros H; exfalso; apply H; now left].
    + destruct (Z.eqb_spec (strings.Index s sep) (-1)) as [E|E].
      * split; [|reflexivity]. intros _ [H|H]; [congruence|]. now apply IH.
      * split; [lia|]. intros H. exfalso. apply E, IH. tauto.
Qed.

(** The first occurrence cuts the string in two. *)
Lemma Index_char_cut k v :
  ~ has_byte c k ->
  strings.Index (k ++ String c v) sep = strings.len k.
Proof.
  unfold has_byte, strings.len.
  induction k as [|a k IH]; cbn [list_ascii_of_string In String.append String.length];
    intros Hk; rewrite Index_char_cons.
  - now rewrite Ascii.eqb_refl.
  - destruct (Ascii.eqb_spec a c) as [->|Hne]; [tauto|].
    rewrite IH by tauto.
    destruct (Z.eqb_spec (Z.of_nat (String.length k)) (-1)); lia.
Qed.

Lemma Index_char_found s :
  0 <= strings.Index s sep ->
  exists k v, s = k ++ String c v /\ ~ has_byte c k
              /\ strings.Index s sep = strings.len k.
Proof.
  unfold has_byte, strings.len.
  induction s as [|a s IH]; [rewrite Index_char_nil; lia|].
  rewrite Index_char_cons.
  destruct (Ascii.eqb_spec a c) as [->|Hne].
  - intros _. exists "", s. cbn. tauto.
  - pose proof (Index_char_lower s) as Hlo.
    destruct (Z.eqb_spec (strings.Index s sep) (-1)) as [E|E]; [lia|].
    intros _. destruct IH as (k & v & -> & Hk & Hi); [lia|].
    exists (String a k), v. cbn [String.append list_ascii_of_string In String.length].
    repeat split; [tauto | lia].
Qed.

End string_facts.

Lemma slice_to_app k r : strings.slice_to (k ++ r) (String.length k) = k.
Proof. induction k as [|a k IH]; cbn; [reflexivity | now rewrite IH]. Qed.

Lemma slice_from_app k r : strings.slice_from (k ++ r) (String.length k) = r.
Proof. induction k as [|a k IH]; cbn; [reflexivity | exact IH]. Qed.

Lemma has_byte_app c a b : has_byte c (a ++ b) <-> has_byte c a \/ has_byte c b.
Proof.
  unfold has_byte. induction a as [|x a IH]; cbn; [tauto|]. rewrite IH. tauto.
Qed.

Lemma append_length a b :
  String.length (a ++ b) = (String.length a + String.length b)%nat.
Proof. induction a as [|x a IH]; cbn; [reflexivity | now rewrite IH]. Qed.

Lemma append_assoc (a b d : string) : (a ++ b) ++ d = a ++ b ++ d.
Proof. induction a as [|x a IH]; cbn; [reflexivity | now rewrite IH]. Qed.

Lemma append_nil_r (a : string) : a ++ "" = a.
Proof. induction a as [|x a IH]; cbn; [reflexivity | now rewrite IH]. Qed.

Lemma HasPrefix_spec s p :
  strings.HasPrefix s p = true <-> exists r, s = p ++ r.
Proof.
  revert s. induction p as [|a p IH]; intros s.
  - cbn. split; [intros _; now exists s | reflexivity].
  - destruct s as [|b s]; cbn.
    + split; [discriminate | intros [r H]; discriminate H].
    + destruct (Ascii.eqb_spec b a) as [->|Hne].
      * rewrite IH. split; intros [r H]; exists r; congruence.
      * split; [discriminate | intros [r H]; congruence].
Qed.

(** One cut of [genSplit] at a one-byte separator. *)
Lemma genSplit_cut n c k v :
  ~ has_byte c k ->
  strings.genSplit (S n) (k ++ String c v) (String c "")
  = k :: strings.genSplit n v (String c "").
Proof.
  intros Hk. cbn [strings.genSplit]. rewrite (Index_char_cut c k v Hk).
  unfold strings.len.
  destruct (Z.ltb_spec (Z.of_nat (String.length k)) 0) as [H|_]; [lia|].
  rewrite Nat2Z.id. cbn [String.length].
  replace (Z.to_nat (Z.of_nat (String.length k) + Z.of_nat 1))
    with (String.length (k ++ String c "")) by (rewrite append_length; cbn; lia).
  replace (k ++ String c v) with ((k ++ String c "") ++ v) at 2
    by (now rewrite append_assoc).
  rewrite slice_from_app. f_equal. apply slice_to_app.
Qed.

Lemma genSplit_whole n c s :
  ~ has_byte c s -> strings.genSplit n s (String c "") = [s].
Proof.
  intros Hs. destruct n; [reflexivity|]. cbn [strings.genSplit].
  apply Index_char_none in Hs. now rewrite Hs.
Qed.

Lemma genSplit_nonempty n s sep : strings.genSplit n s sep <> [].
Proof.
  destruct n; cbn [strings.genSplit]; [discriminate|].
  destruct (_ <? _); discriminate.
Qed.

Lemma concat_cons sep x ls :
  ls <> [] -> String.concat sep (x :: ls) = x ++ sep ++ String.concat sep ls.
Proof. destruct ls; [congruence | reflexivity]. Qed.

(** [Split] at newlines is the inverse of joining newline-free lines. *)
Lemma genSplit_lines n s :
  (String.length s <= n)%nat ->
  String.concat newline (strings.genSplit n s newline) = s
  /\ Forall (fun x => ~ has_byte "010"%char x) (strings.genSplit n s newline).
Proof.
  unfold newline. revert s. induction n as [|n IH]; intros s Hn.
  - destruct s; [|cbn in Hn; lia]. cbn. split; [reflexivity|].
    constructor; [|constructor]. intros [].
  - destruct (Z.ltb_spec (strings.Index s (String "010"%char "")) 0) as [Hlt|Hge].
    + assert (Hs : ~ has_byte "010"%char s).
      { apply Index_char_none. pose proof (Index_char_lower "010"%char s). lia. }
      rewrite genSplit_whole by exact Hs. split; [reflexivity|].
      constructor; [exact Hs | constructor].
    + destruct (Index_char_found _ _ Hge) as (k & v & -> & Hk & _).
      rewrite genSplit_cut by exact Hk.
      rewrite append_length in Hn. cbn [String.length] in Hn.
      destruct (IH v) as [Hc Hf]; [lia|].
      rewrite concat_cons by apply genSplit_nonempty.
      rewrite Hc. split; [reflexivity | now constructor].
Qed.

(** ** [keyValueForm] *)

Lemma is_pair_inj x k v k' v' : is_pair x k v -> is_pair x k' v' -> k = k' /\ v = v'.
Proof.
  intros [-> Hk] [E Hk']. cbn in E.
  assert (Hl : strings.len k = strings.len k').
  { rewrite <- (Index_char_cut ":"%char k v Hk), E.
    now apply Index_char_cut. }
  unfold strings.len in Hl. apply Nat2Z.inj in Hl.
  assert (k = k') as <-.
  { rewrite <- (slice_to_app k (String ":"%char v)), E, Hl. apply slice_to_app. }
  split; [reflexivity|].
  pose proof (f_equal (fun s => strings.slice_from s (String.length k)) E) as E'.
  cbn beta in E'. rewrite !slice_from_app in E'. congruence.
Qed.

Lemma is_pair_colon x k v : is_pair x k v -> has_byte ":"%char x.
Proof.
  intros [-> _]. apply has_byte_app. right. cbn. now left.
Qed.

Lemma keyValueForm_step_pair o x k v :
  is_pair x k v -> keyValueForm_step o x = <[k := v]> o.
Proof.
  intros [-> Hk]. unfold keyValueForm_step, strings.ContainsRune, strings.SplitN2.
  cbn [String.append]. rewrite genSplit_cut by exact Hk.
  rewrite (Index_char_cut ":"%char k v Hk). unfold strings.len.
  destruct (Z.leb_spec 0 (Z.of_nat (String.length k))) as [_|H]; [|lia].
  reflexivity.
Qed.

Lemma keyValueForm_step_skip o x :
  ~ has_byte ":"%char x -> keyValueForm_step o x = o.
Proof.
  intros Hx. unfold keyValueForm_step, strings.ContainsRune.
  apply Index_char_none in Hx. now rewrite Hx.
Qed.

Lemma line_cases x :
  ~ has_byte ":"%char x \/ exists k v, is_pair x k v.
Proof.
  destruct (Z.ltb_spec (strings.Index x (String ":"%char "")) 0) as [Hlt|Hge].
  - left. apply Index_char_none. pose proof (Index_char_lower ":"%char x). lia.
  - right. destruct (Index_char_found _ _ Hge) as (k & v & -> & Hk & _).
    exists k, v. now split.
Qed.

(** What the loop leaves under [k], from any starting map. *)
Lemma keyValueForm_fold ls : forall (o : gmap string string) k v,
  fold_left keyValueForm_step ls o !! k = Some v <->
  (exists pre x post, ls = (pre ++ x :: post)%list /\ is_pair x k v
      /\ Forall (fun y => forall v', ~ is_pair y k v') post)
  \/ (o !! k = Some v /\ Forall (fun y => forall v', ~ is_pair y k v') ls).
Proof.
  induction ls as [|y ls IH] using rev_ind; intros o k v.
  - cbn. split.
    + intros H. right. split; [exact H | constructor].
    + intros [(pre & x & post & E & _)|[H _]]; [|exact H].
      now destruct pre.
  - rewrite fold_left_app. cbn [fold_left].
    destruct (line_cases y) as [Hy|(k' & v' & Hy)].
    + rewrite keyValueForm_step_skip by exact Hy. rewrite IH.
      assert (Hno : forall v0, ~ is_pair y k v0).
      { intros v0 H. apply Hy. eapply is_pair_colon, H. }
      split.
      * intros [(pre & x & post & -> & Hx & Hp)|[Ho Hp]].
        -- left. exists pre, x, (post ++ [y])%list. rewrite <- app_assoc.
           split; [reflexivity | split; [exact Hx|]]. apply Forall_app. split; [exact Hp|].
           constructor; [exact Hno | constructor].
        -- right. split; [exact Ho|]. apply Forall_app. split; [exact Hp|].
           constructor; [exact Hno | constructor].
      * intros [(pre & x & post & E & Hx & Hp)|[Ho Hp]].
        -- destruct post as [|z post _] using rev_ind.
           ++ apply app_inj_tail in E as [_ <-]. destruct (Hno _ Hx).
           ++ rewrite app_comm_cons, app_assoc in E.
              apply app_inj_tail in E as [-> <-].
              apply Forall_app in Hp as [Hp _].
              left. now exists pre, x, post.
        -- apply Forall_app in Hp as [Hp _]. right. now split.
    + rewrite (keyValueForm_step_pair _ _ _ _ Hy).
      destruct (decide (k' = k)) as [->|Hne].
      * rewrite lookup_insert_eq. split.
        -- intros [= <-]. left. exists ls, y, [].
           split; [reflexivity | split; [exact Hy | constructor]].
        -- intros [(pre & x & post & E & Hx & Hp)|[_ Hp]].
           ++ destruct post as [|z post _] using rev_ind.
              ** apply app_inj_tail in E as [_ <-].
                 destruct (is_pair_inj _ _ _ _ _ Hy Hx) as [_ ->]. reflexivity.
              ** rewrite app_comm_cons, app_assoc in E.
                 apply app_inj_tail in E as [_ <-].
                 apply Forall_app in Hp as [_ Hp].
                 apply Forall_inv in Hp. destruct (Hp _ Hy).
           ++ apply Forall_app in Hp as [_ Hp].
              apply Forall_inv in Hp. destruct (Hp _ Hy).
      * rewrite lookup_insert_ne by exact Hne. rewrite IH.
        assert (Hno : forall v0, ~ is_pair y k v0).
        { intros v0 H. destruct (is_pair_inj _ _ _ _ _ Hy H). congruence. }
        split.
        -- intros [(pre & x & post & -> & Hx & Hp)|[Ho Hp]].
           ++ left. exists pre, x, (post ++ [y])%list. rewrite <- app_assoc.
              split; [reflexivity | split; [exact Hx|]]. apply Forall_app. split; [exact Hp|].
              constructor; [exact Hno | constructor].
           ++ right. split; [exact Ho|]. apply Forall_app. split; [exact Hp|].
              constructor; [exact Hno | constructor].
        -- intros [(pre & x & post & E & Hx & Hp)|[Ho Hp]].
           ++ destruct post as [|z post _] using rev_ind.
              ** apply app_inj_tail in E as [_ <-]. destruct (Hno _ Hx).
              ** rewrite app_comm_cons, app_assoc in E.
                 apply app_inj_tail in E as [-> <-].
                 apply Forall_app in Hp as [Hp _].
                 left. now exists pre, x, post.
           ++ apply Forall_app in Hp as [Hp _]. right. now split.
Qed.

(** C10.  Every input of [keyValueForm] is its newline-free lines joined by
    newlines, and the map holds [v] under [k] exactly when some line is
    [k:v], cut at its first colon (so [v] may hold colons), and no later
    line is a pair with the key [k].  Lines without a colon and earlier
    lines of the same key leave no trace. *)
Theorem keyValueForm_last_pair_wins (corpus : string) :
  exists lines,
    corpus = String.concat newline lines
    /\ Forall (fun x => ~ has_byte "010"%char x) lines
    /\ forall k v,
         keyValueForm corpus !! k = Some v <->
         exists pre x post,
           lines = (pre ++ x :: post)%list /\ is_pair x k v
           /\ Forall (fun y => forall v', ~ is_pair y k v') post.
Proof.
  exists (strings.Split corpus newline).
  destruct (genSplit_lines (String.length corpus) corpus (le_n _)) as [Hc Hf].
  split; [symmetry; exact Hc | split; [exact Hf|]].
  intros k v. unfold keyValueForm. fold newline. rewrite keyValueForm_fold.
  rewrite lookup_empty. split; [|now left].
  intros [H|[H _]]; [exact H | discriminate].
Qed.

(** ** [Validate] *)

(** Unfold [Validate] down to the state it runs in. *)
Ltac run_Validate :=
  unfold Validate, ReadAll, mbind, M_bind, mret, M_ret, Values_Get,
    Values_Set, Values_Encode, Post, send, read_body, Close, raise;
  cbn [heap requests bodies closed].

(** Both checks passed: what is left of [Validate] is the POST. *)
Ltac pass_checks m Hm He Hmode :=
  run_Validate; rewrite Hm;
  destruct (String.eqb_spec (url.Get m "openid.op_endpoint") "") as [?E|_];
  [congruence|];
  cbv beta; rewrite Hm, Hmode;
  cbn [String.eqb Ascii.eqb negb Bool.eqb]; cbv beta;
  rewrite Hm; cbn [heap requests bodies closed];
  rewrite lookup_insert_eq;
  fold (check_authentication m); fold (verification_request m).

Lemma Get_absent_or_empty (m : url.Values) key :
  url.Get m key = "" <->
  m !! key = None \/ m !! key = Some [] \/ exists rest, m !! key = Some ("" :: rest).
Proof.
  unfold url.Get. destruct (m !! key) as [[|x rest]|].
  - split; auto.
  - split.
    + intros ->. right. right. now exists rest.
    + intros [H|[H|[r H]]]; congruence.
  - split; auto.
Qed.

Lemma Get_other (m : url.Values) key key' value :
  key <> key' -> url.Get (url.Set_ m key value) key' = url.Get m key'.
Proof. intros H. unfold url.Get, url.Set_. now rewrite lookup_insert_ne. Qed.

Lemma default_eq_Some (o : option string) (s : string) :
  s <> "" -> (String.eqb (default "" o) s = true <-> o = Some s).
Proof.
  intros Hs. rewrite String.eqb_eq. destruct o; cbn; split; congruence.
Qed.

Lemma Validate_no_endpoint w values st :
  (forall m, heap st !! values = Some m -> url.Get m "openid.op_endpoint" = "") ->
  Validate w values st = (Ret (failed NO_OP_ENDPOINT), st).
Proof.
  intros H. run_Validate. destruct (heap st !! values) as [m|].
  - now rewrite (H m eq_refl).
  - reflexivity.
Qed.

Lemma Validate_wrong_mode w values st m :
  heap st !! values = Some m ->
  url.Get m "openid.op_endpoint" <> "" ->
  url.Get m "openid.mode" <> "id_res" ->
  Validate w values st = (Ret (failed INCORRECT_MODE), st).
Proof.
  intros Hm He Hmode. run_Validate. rewrite Hm.
  destruct (String.eqb_spec (url.Get m "openid.op_endpoint") "") as [E|_];
    [congruence|].
  cbv beta. rewrite Hm.
  destruct (String.eqb_spec (url.Get m "openid.mode") "id_res") as [E|_];
    [congruence | reflexivity].
Qed.

Lemma Validate_checked w values st m :
  heap st !! values = Some m ->
  url.Get m "openid.op_endpoint" <> "" ->
  url.Get m "openid.mode" = "id_res" ->
  Validate w values st =
    match http w (requests st) (verification_request m) with
    | Fail None _ => (Panic NilDereference, tried w st values m)
    | Fail (Some r) e =>
        (Ret {| grant := false; id := ""; err := Some e |},
         answered st values m (reply_body r))
    | Ok r =>
        (Ret match body_err (reply_body r) with
             | Some e => {| grant := false; id := ""; err := Some e |}
             | None => verdict m (body_data (reply_body r))
             end,
         answered st values m (reply_body r))
    end.
Proof.
  intros Hm He Hmode. pass_checks m Hm He Hmode.
  unfold http, tried. change (URL (verification_request m))
    with (url.Get m "openid.op_endpoint").
  destruct (NewRequest_err w (url.Get m "openid.op_endpoint")) as [x|];
    [reflexivity|].
  destruct (Do w (requests st) (verification_request m)) as [r|[r|] e];
    cbn [heap requests bodies closed Body Header]; cbv beta;
    cbn [heap requests bodies closed Body Header].
  - rewrite list_lookup_middle by reflexivity. unfold answered, verdict.
    destruct (body_err (reply_body r)); [reflexivity|]. fold ns_2_0.
    destruct (negb _); cbn [heap requests bodies closed]; [reflexivity|].
    rewrite lookup_insert_eq. unfold check_authentication.
    now rewrite Get_other.
  - reflexivity.
  - unfold posted. now rewrite app_nil_r.
Qed.

(** On every return with an error the named result [grant] still holds
    its zero value. *)
Lemma Validate_error_not_granted w values st r st' :
  Validate w values st = (Ret r, st') -> err r <> None -> grant r = false.
Proof.
  intros H Herr. destruct (heap st !! values) as [m|] eqn:Hm.
  - destruct (String.eqb_spec (url.Get m "openid.op_endpoint") "") as [He|He].
    + rewrite Validate_no_endpoint in H by congruence. now injection H as <- _.
    + destruct (String.eqb_spec (url.Get m "openid.mode") "id_res") as [Hmode|Hmode].
      * rewrite (Validate_checked _ _ _ _ Hm He Hmode) in H.
        destruct (http w (requests st) (verification_request m)) as [a|[a|] e];
          [| |discriminate]; injection H as <- _; [|reflexivity].
        destruct (body_err (reply_body a)); [reflexivity|].
        unfold verdict in *. destruct (negb _); [reflexivity|].
        now destruct Herr.
      * rewrite (Validate_wrong_mode _ _ _ _ Hm He Hmode) in H.
        now injection H as <- _.
  - rewrite Validate_no_endpoint in H by congruence. now injection H as <- _.
Qed.

(** C1.  When the endpoint and mode checks pass and the operator's answer
    was read, [Validate] returns; if the answer's [ns] entry is the OpenID
    2.0 namespace there is no error, [grant] is true exactly when the
    [is_valid] entry is [true], and [id] is the [openid.claimed_id] of the
    assertion; if [ns] is missing or different the error is [NS_INCORRECT].
    And on every return with an error, [grant] is false. *)
Theorem Validate_grant_and_claimed_id :
  (forall w values st m reply,
      heap st !! values = Some m ->
      url.Get m "openid.op_endpoint" <> "" ->
      url.Get m "openid.mode" = "id_res" ->
      http w (requests st) (verification_request m) = Ok reply ->
      body_err (reply_body reply) = None ->
      let kVs := keyValueForm (body_data (reply_body reply)) in
      exists r st',
        Validate w values st = (Ret r, st')
        /\ (kVs !! "ns" = Some "http://specs.openid.net/auth/2.0" ->
            err r = None
            /\ (grant r = true <-> kVs !! "is_valid" = Some "true")
            /\ id r = url.Get m "openid.claimed_id")
        /\ (kVs !! "ns" <> Some "http://specs.openid.net/auth/2.0" ->
            err r = Some (ValidateError NS_INCORRECT)))
  /\ (forall w values st r st',
         Validate w values st = (Ret r, st') ->
         err r <> None -> grant r = false).
Proof.
  split; [|exact Validate_error_not_granted].
  intros w values st m reply Hm He Hmode Hpost Hread kVs.
  rewrite (Validate_checked _ _ _ _ Hm He Hmode), Hpost, Hread.
  eexists _, _. split; [reflexivity|].
  unfold verdict. fold kVs.
  assert (Hns : String.eqb (default "" (kVs !! "ns")) ns_2_0 = true
                <-> kVs !! "ns" = Some ns_2_0)
    by (apply default_eq_Some; discriminate).
  fold ns_2_0. destruct (String.eqb (default "" (kVs !! "ns")) ns_2_0);
    cbn [negb].
  - split; [|intros H; destruct H; now apply Hns].
    intros _. cbn [err grant id]. split; [reflexivity|].
    split; [|reflexivity]. apply default_eq_Some. discriminate.
  - split; [|reflexivity]. intros H. apply Hns in H. discriminate.
Qed.

Lemma Validate_grant_and_claimed_id_witness :
  exists r st',
    Validate w_confirm 0 (holding assertion) = (Ret r, st')
    /\ err r = None /\ grant r = true /\ id r = "https://user.example/id".
Proof.
  destruct (proj1 Validate_grant_and_claimed_id w_confirm 0%nat
              (holding assertion) assertion
              {| reply_header := ∅;
                 reply_body :=
                   {| body_data := "ns:http://specs.openid.net/auth/2.0"
                                   ++ newline ++ "is_valid:true" ++ newline;
                      body_err := None |} |})
    as (r & st' & H & Hns & _).
  - reflexivity.
  - vm_compute. discriminate.
  - reflexivity.
  - reflexivity.
  - reflexivity.
  - exists r, st'. split; [exact H|].
    destruct Hns as (He & Hg & Hi); [vm_compute; reflexivity|].
    split; [exact He|]. split; [|rewrite Hi; reflexivity].
    apply Hg. vm_compute. reflexivity.
Defined.

(** C3.  [Validate] checks before it posts.  With [openid.op_endpoint]
    absent or empty it returns [NO_OP_ENDPOINT]; with an endpoint and a
    mode other than [id_res] it returns [INCORRECT_MODE]; both times the
    state it returns in is the state it was called in, so no request was
    sent. *)
Theorem Validate_checks_before_post w values st (m : url.Values) :
  heap st !! values = Some m ->
  ((m !! "openid.op_endpoint" = None
    \/ m !! "openid.op_endpoint" = Some []
    \/ (exists rest, m !! "openid.op_endpoint" = Some ("" :: rest))) ->
   Validate w values st = (Ret (failed NO_OP_ENDPOINT), st)
   /\ requests (snd (Validate w values st)) = requests st)
  /\ (forall e rest,
         m !! "openid.op_endpoint" = Some (e :: rest) -> e <> "" ->
         url.Get m "openid.mode" <> "id_res" ->
         Validate w values st = (Ret (failed INCORRECT_MODE), st)
         /\ requests (snd (Validate w values st)) = requests st).
Proof.
  intros Hm. split.
  - intros H. apply Get_absent_or_empty in H.
    rewrite Validate_no_endpoint by congruence. now split.
  - intros e rest He Hne Hmode.
    rewrite (Validate_wrong_mode _ _ _ _ Hm); [now split | | exact Hmode].
    unfold url.Get. now rewrite He.
Qed.

Lemma Validate_checks_before_post_witness :
  Validate w_confirm 0 (holding assertion_no_endpoint)
    = (Ret (failed NO_OP_ENDPOINT), holding assertion_no_endpoint)
  /\ Validate w_confirm 0 (holding assertion_cancel)
    = (Ret (failed INCORRECT_MODE), holding assertion_cancel).
Proof.
  split.
  - refine (proj1 (proj1 (Validate_checks_before_post w_confirm 0%nat
                     (holding assertion_no_endpoint) assertion_no_endpoint
                     eq_refl) _)).
    left. reflexivity.
  - refine (proj1 (proj2 (Validate_checks_before_post w_confirm 0%nat
                     (holding assertion_cancel) assertion_cancel
                     eq_refl) "https://op.example/verify" [] _ _ _)).
    + reflexivity.
    + discriminate.
    + vm_compute. discriminate.
Defined.




(** C7, on the code.  The POST fails with no response: [Validate] does not
    return the error, it panics on [defer resp.Body.Close()], which comes
    before the test of [err]. *)
Theorem Validate_panics_on_transport_failure :
  http w_down [] (verification_request assertion)
    = Fail None (LibError "dial tcp: connection refused")
  /\ fst (Validate w_down 0 (holding assertion)) = Panic NilDereference.
Proof. split; [reflexivity | vm_compute; reflexivity]. Qed.

(** ** The redirect URL *)

Lemma sorted_keys_redirect c r p :
  url.sorted_keys (redirect_values c r p) =
  ["openid.claimed_id"; "openid.identity"; "openid.mode"; "openid.ns";
   "openid.realm"; "openid.return_to"].
Proof. vm_compute. reflexivity. Qed.

Lemma redirect_values_lookup c r p :
  redirect_values c r p !! "openid.claimed_id" = Some [c]
  /\ redirect_values c r p !! "openid.identity" = Some [c]
  /\ redirect_values c r p !! "openid.mode" = Some ["checkid_setup"]
  /\ redirect_values c r p !! "openid.ns"
     = Some ["http://specs.openid.net/auth/2.0"]
  /\ redirect_values c r p !! "openid.realm" = Some [r]
  /\ redirect_values c r p !! "openid.return_to" = Some [r ++ p].
Proof. repeat split; vm_compute; reflexivity. Qed.

Lemma fold_left_cons {A B} (f : A -> B -> A) x l a :
  fold_left f (x :: l) a = fold_left f l (f a x).
Proof. reflexivity. Qed.

Lemma fold_left_nil {A B} (f : A -> B -> A) a : fold_left f [] a = a.
Proof. reflexivity. Qed.

Lemma default_Some {A} (d x : A) : default d (Some x) = x.
Proof. reflexivity. Qed.

Lemma write_pair_first k x :
  url.write_pair k "" x = k ++ "=" ++ url.QueryEscape x.
Proof. reflexivity. Qed.

Lemma write_pair_next k a buf x :
  url.write_pair k (String a buf) x
  = String a buf ++ "&" ++ k ++ "=" ++ url.QueryEscape x.
Proof.
  unfold url.write_pair, strings.len. cbn [String.length].
  destruct (Z.ltb_spec 0 (Z.of_nat (S (String.length buf)))); [|lia].
  now rewrite append_assoc.
Qed.

Lemma write_pair_more k a k1 rest x :
  url.write_pair k (String a k1 ++ rest) x
  = String a k1 ++ rest ++ "&" ++ k ++ "=" ++ url.QueryEscape x.
Proof.
  change (String a k1 ++ rest) with (String a (k1 ++ rest)) at 1.
  rewrite write_pair_next. cbn [String.append]. f_equal. apply append_assoc.
Qed.

Lemma escape_literals :
  url.QueryEscape "openid.claimed_id" = "openid.claimed_id"
  /\ url.QueryEscape "openid.identity" = "openid.identity"
  /\ url.QueryEscape "openid.mode" = "openid.mode"
  /\ url.QueryEscape "openid.ns" = "openid.ns"
  /\ url.QueryEscape "openid.realm" = "openid.realm"
  /\ url.QueryEscape "openid.return_to" = "openid.return_to"
  /\ url.QueryEscape "checkid_setup" = "checkid_setup"
  /\ url.QueryEscape "http://specs.openid.net/auth/2.0"
     = "http%3A%2F%2Fspecs.openid.net%2Fauth%2F2.0".
Proof. repeat split; vm_compute; reflexivity. Qed.

(** What [Encode] writes for the map literal of [RedirectURI]. *)
Lemma Encode_redirect_values c r p :
  url.Encode (redirect_values c r p) = redirect_query c r p.
Proof.
  unfold url.Encode. rewrite sorted_keys_redirect.
  rewrite !fold_left_cons, fold_left_nil.
  destruct (redirect_values_lookup c r p) as (-> & -> & -> & -> & -> & ->).
  rewrite !default_Some, !fold_left_cons, !fold_left_nil.
  destruct escape_literals as (-> & -> & -> & -> & -> & -> & E1 & E2).
  rewrite write_pair_first.
  rewrite !write_pair_more, !append_assoc.
  rewrite E1, E2. reflexivity.
Qed.

Lemma Contains_char s c :
  strings.Contains s (String c "") = true <-> has_byte c s.
Proof.
  unfold strings.Contains. pose proof (Index_char_none c s) as H.
  pose proof (Index_char_lower c s) as Hlo.
  destruct (Z.leb_spec 0 (strings.Index s (String c ""))) as [Hge|Hlt].
  - split; [|reflexivity]. intros _.
    destruct (Index_char_found c s Hge) as (k & v & -> & _ & _).
    apply has_byte_app. right. now left.
  - split; [discriminate|]. intros Hb. exfalso. apply H; [lia | exact Hb].
Qed.

(** C5.  When discovery and extraction give [(endpoint, Claimed)] without
    error, [RedirectURI] returns [endpoint], a joiner and the query string.
    The joiner is [?] exactly when [endpoint] holds no [?], and [&]
    otherwise.  The query string carries, escaped, [openid.claimed_id] and
    [openid.identity] (both the claimed identity, or the
    [identifier_select] sentinel when that is empty), [openid.mode],
    [openid.ns], [openid.realm] and [openid.return_to] (realm followed by
    returnPoint), and nothing else, in the key order of [Encode]. *)
Theorem RedirectURI_builds_query fuel w identifier realm returnPoint
    st normalized rdClr st1 endpoint Claimed st2 :
  normalize identifier = Ret normalized ->
  discover fuel w normalized st = (Ret (rdClr, None), st1) ->
  getIdentifiers w rdClr st1 = (Ret (endpoint, Claimed, None), st2) ->
  exists joiner claimed,
    RedirectURI fuel w identifier realm returnPoint st
    = (Ret (endpoint ++ joiner ++ redirect_query claimed realm returnPoint,
            None), st2)
    /\ (~ has_byte "?"%char endpoint -> joiner = "?")
    /\ (has_byte "?"%char endpoint -> joiner = "&")
    /\ (Claimed = "" -> claimed = identifier_select)
    /\ (Claimed <> "" -> claimed = Claimed).
Proof.
  intros Hn Hd Hg.
  exists (if strings.Contains endpoint "?" then "&" else "?"),
         (if String.eqb Claimed "" then identifier_select else Claimed).
  split.
  - unfold RedirectURI. rewrite Hn. unfold mbind, M_bind. rewrite Hd.
    cbv beta iota. rewrite Hg. cbv beta iota. unfold mret, M_ret.
    do 2 f_equal. unfold redirect_url. fold identifier_select.
    rewrite Encode_redirect_values.
    destruct (strings.Contains endpoint "?"); cbn [negb];
      now rewrite append_assoc.
  - pose proof (Contains_char endpoint "?"%char) as Hc.
    destruct (strings.Contains endpoint "?").
    + repeat split.
      * intros H. destruct H. now apply Hc.
      * now destruct (String.eqb_spec Claimed "").
      * now destruct (String.eqb_spec Claimed "").
    + repeat split.
      * intros H. apply Hc in H. discriminate.
      * now destruct (String.eqb_spec Claimed "").
      * now destruct (String.eqb_spec Claimed "").
Qed.

Lemma RedirectURI_builds_query_witness :
  fst (RedirectURI 2 w_yadis "user.example" "https://rp.example" "/cb" st0)
  = Ret ("https://op.example/auth?"
         ++ "openid.claimed_id=https%3A%2F%2Fuser.example%2Fid"
         ++ "&openid.identity=https%3A%2F%2Fuser.example%2Fid"
         ++ "&openid.mode=checkid_setup"
         ++ "&openid.ns=http%3A%2F%2Fspecs.openid.net%2Fauth%2F2.0"
         ++ "&openid.realm=https%3A%2F%2Frp.example"
         ++ "&openid.return_to=https%3A%2F%2Frp.example%2Fcb", None).
Proof.
  destruct (RedirectURI_builds_query 2 w_yadis "user.example"
              "https://rp.example" "/cb" st0 "http://user.example"
              (Some 1%nat)
              (snd (discover 2 w_yadis "http://user.example" st0))
              "https://op.example/auth" "https://user.example/id"
              (snd (getIdentifiers w_yadis (Some 1%nat)
                      (snd (discover 2 w_yadis "http://user.example" st0)))))
    as (joiner & claimed & H & Hj & _ & _ & Hc).
  - vm_compute. reflexivity.
  - vm_compute. reflexivity.
  - vm_compute. reflexivity.
  - rewrite H, Hj, Hc.
    + reflexivity.
    + discriminate.
    + intros Hq. apply Contains_char in Hq. discriminate Hq.
Defined.

(** ** The identifier *)

(** C2, on the code.  [identifier[index:]] keeps what follows the first
    [#], the delimiter included, and drops what comes before it: the
    identifier below is passed to [discover] as [#frag], not as
    [http://example.com/user]. *)
Theorem normalize_keeps_the_fragment :
  normalize "http://example.com/user#frag" = Ret "#frag"
  /\ strings.slice_to "http://example.com/user#frag"
       (Z.to_nat (strings.Index "http://example.com/user#frag" "#"))
     = "http://example.com/user".
Proof. split; reflexivity. Qed.

(** The same for every identifier: once a [#] occurs, the identifier that
    goes to [discover] starts with it. *)
Lemma normalize_fragment identifier normalized :
  normalize identifier = Ret normalized ->
  has_byte "#"%char identifier ->
  starts_with "#" normalized.
Proof.
  unfold normalize. intros H Hb.
  assert (H1 : has_byte "#"%char (strip_xri identifier)).
  { unfold strip_xri.
    destruct (strings.HasPrefix identifier "xri://") eqn:E; [|exact Hb].
    apply HasPrefix_spec in E as [r ->].
    change 6%nat with (String.length "xri://"). rewrite slice_from_app.
    apply has_byte_app in Hb as [Hb|Hb]; [|exact Hb].
    cbn in Hb. repeat (destruct Hb as [Hb|Hb]; [discriminate Hb|]).
    destruct Hb. }
  destruct (strip_xri identifier) as [|c0 s1]; [discriminate H|].
  injection H as <-.
  assert (H2 : has_byte "#"%char (add_scheme c0 (String c0 s1))).
  { unfold add_scheme. destruct (runeIs (utf8.byte c0) xri_global_context_symbol).
    - apply has_byte_app. now right.
    - destruct (_ && _); [apply has_byte_app; now right | exact H1]. }
  generalize dependent (add_scheme c0 (String c0 s1)). intros s2 H2.
  unfold cut_fragment. pose proof (Index_char_none "#"%char s2) as Hn.
  pose proof (Index_char_lower "#"%char s2) as Hlo.
  destruct (Z.eqb_spec (strings.Index s2 "#") (-1)) as [E|E]; cbn [negb].
  - apply Hn in E. contradiction.
  - destruct (Index_char_found "#"%char s2) as (k & v & -> & Hk & Hi); [lia|].
    rewrite Hi. unfold strings.len. rewrite Nat2Z.id, slice_from_app.
    now exists v.
Qed.

(** C8, on the code.  The empty identifier, and [xri://] which is empty
    once the prefix is cut, are not rejected with an error:
    [identifier[0]] panics, before any request is made. *)
Theorem RedirectURI_panics_on_empty_identifier fuel w realm returnPoint st :
  RedirectURI fuel w "" realm returnPoint st = (Panic IndexOutOfRange, st)
  /\ RedirectURI fuel w "xri://" realm returnPoint st
     = (Panic IndexOutOfRange, st).
Proof. split; reflexivity. Qed.

(** ** [getIdentifiers] *)




Lemma getIdentifiers_step_fst acc v :
  ~ is_server v -> fst (getIdentifiers_step acc v) = fst acc.
Proof.
  intros H. unfold getIdentifiers_step. destruct acc as [OP Claimed].
  destruct (strings.HasPrefix (Type_ v) "http://specs.openid.net/auth/2.0/server")
    eqn:Hs.
  - destruct H. apply HasPrefix_spec. exact Hs.
  - destruct (strings.HasPrefix (Type_ v) "http://specs.openid.net/auth/2.0/signon");
      reflexivity.
Qed.

Lemma getIdentifiers_step_snd acc v :
  ~ is_signon v -> snd (getIdentifiers_step acc v) = snd acc.
Proof.
  intros H. unfold getIdentifiers_step. destruct acc as [OP Claimed].
  destruct (strings.HasPrefix (Type_ v) "http://specs.openid.net/auth/2.0/server");
    [reflexivity|].
  destruct (strings.HasPrefix (Type_ v) "http://specs.openid.net/auth/2.0/signon")
    eqn:Hs; [|reflexivity].
  destruct H. apply HasPrefix_spec. exact Hs.
Qed.

Lemma getIdentifiers_fold_fst post : forall acc,
  Forall (fun y => ~ is_server y) post ->
  fst (fold_left getIdentifiers_step post acc) = fst acc.
Proof.
  induction post as [|y post IH]; intros acc Hp; [reflexivity|].
  apply Forall_cons in Hp as [Hy Hp]. cbn [fold_left].
  rewrite IH by exact Hp. now apply getIdentifiers_step_fst.
Qed.

Lemma getIdentifiers_fold_snd post : forall acc,
  Forall (fun y => ~ is_signon y) post ->
  snd (fold_left getIdentifiers_step post acc) = snd acc.
Proof.
  induction post as [|y post IH]; intros acc Hp; [reflexivity|].
  apply Forall_cons in Hp as [Hy Hp]. cbn [fold_left].
  rewrite IH by exact Hp. now apply getIdentifiers_step_snd.
Qed.




(** ** [discover] *)

(** [discover] has no [Close] in it. *)
Lemma discover_closes_nothing fuel : forall w identifier st,
  closed (snd (discover fuel w identifier st)) = closed st.
Proof.
  induction fuel as [|fuel IH]; intros w identifier st; [reflexivity|].
  cbn [discover]. destruct (NewRequest_err w identifier); [reflexivity|].
  unfold mbind, M_bind, send.
  destruct (Do w (requests st) _) as [r|[r|] e]; cbn [snd closed];
    try reflexivity.
  cbv beta iota. cbn [Header Body].
  destruct (strings.HasPrefix (url.Get (reply_header r) "Content-Type")
              "application/xrds+xml"); [reflexivity|].
  destruct (negb (String.eqb (url.Get (reply_header r) "X-Xrds-Location") ""));
    [now rewrite IH|].
  destruct (strings.HasPrefix (url.Get (reply_header r) "Content-Type")
              "text/html"); [|reflexivity].
  unfold read_body. cbn [bodies].
  rewrite list_lookup_middle by reflexivity. cbv beta iota.
  (match goal with
     | |- context [h5_Parse w ?x] => destruct (h5_Parse w x) as [tree|]
     end; [|reflexivity]);
    (destruct (discoverFromHTMLNode w tree) as [str [|]];
     [now rewrite IH | reflexivity]).
Qed.

(** C9, on the code.  A first response that redirects by its
    [X-Xrds-Location] header, then the XRDS document: [discover] returns
    the second body, and the first one, which nobody else holds, is still
    open.  And a page whose HTML does not parse: [discover] returns [nil]
    and the error, and the body it fetched is still open. *)
Theorem discover_leaves_redirecting_body_open :
  (exists st',
      discover 2 w_yadis "http://user.example" st0
      = (Ret (Some 1%nat, None), st')
      /\ length (bodies st') = 2%nat
      /\ closed st' = []
      /\ open_bodies st' = [0%nat; 1%nat])
  /\ (exists st',
         discover 1 w_broken_html "http://user.example" st0
         = (Ret (None, Some (LibError "unexpected EOF")), st')
         /\ length (bodies st') = 1%nat
         /\ open_bodies st' = [0%nat]).
Proof.
  split.
  - exists (snd (discover 2 w_yadis "http://user.example" st0)).
    split; [vm_compute; reflexivity|].
    split; [vm_compute; reflexivity|].
    split; vm_compute; reflexivity.
  - exists (snd (discover 1 w_broken_html "http://user.example" st0)).
    split; [vm_compute; reflexivity|].
    split; vm_compute; reflexivity.
Qed.

(** ** More on the identifier *)

(** The test of line 79: [identifier[0]], as a rune, is found among the
    runes of the XRI global context symbols exactly for the six bytes
    [= @ + $ ! (]. *)
Lemma runeIs_xri c0 :
  runeIs (utf8.byte c0) xri_global_context_symbol = true
  <-> has_byte c0 "=@+$!(".
Proof.
  rewrite <- Contains_char.
  assert (E : runeIs (utf8.byte c0) xri_global_context_symbol
              = strings.Contains "=@+$!(" (String c0 ""))
    by (destruct c0 as [[] [] [] [] [] [] [] []]; vm_compute; reflexivity).
  now rewrite E.
Qed.

Lemma strip_xri_empty identifier :
  strip_xri identifier = "" <-> identifier = "" \/ identifier = "xri://".
Proof.
  unfold strip_xri.
  destruct (strings.HasPrefix identifier "xri://") eqn:E.
  - apply HasPrefix_spec in E as [r ->].
    change 6%nat with (String.length "xri://"). rewrite slice_from_app.
    split.
    + intros ->. now right.
    + intros [H|H]; [discriminate H|]. cbn in H. congruence.
  - split.
    + intros ->. now left.
    + intros [-> | ->]; [reflexivity | discriminate E].
Qed.

Lemma has_byte_strip_xri c identifier :
  has_byte c (strip_xri identifier) -> has_byte c identifier.
Proof.
  unfold strip_xri.
  destruct (strings.HasPrefix identifier "xri://") eqn:E; [|tauto].
  apply HasPrefix_spec in E as [r ->].
  change 6%nat with (String.length "xri://"). rewrite slice_from_app.
  intros H. apply has_byte_app. now right.
Qed.

Lemma cut_fragment_none s : ~ has_byte "#"%char s -> cut_fragment s = s.
Proof.
  intros H. unfold cut_fragment. apply Index_char_none in H. now rewrite H.
Qed.

Lemma cut_fragment_at k v :
  ~ has_byte "#"%char k -> cut_fragment (k ++ String "#"%char v) = String "#"%char v.
Proof.
  intros H. unfold cut_fragment. rewrite (Index_char_cut "#"%char k v H).
  unfold strings.len.
  destruct (Z.eqb_spec (Z.of_nat (String.length k)) (-1)); [lia|].
  cbn [negb]. rewrite Nat2Z.id. apply slice_from_app.
Qed.

Lemma add_scheme_has_scheme c0 s :
  starts_with "http://" (add_scheme c0 s)
  \/ starts_with "https://" (add_scheme c0 s).
Proof.
  unfold add_scheme. destruct (runeIs (utf8.byte c0) xri_global_context_symbol).
  - left. now exists ("xri.net/" ++ s).
  - destruct (strings.HasPrefix s "http://") eqn:E1; cbn [negb andb].
    + left. now apply HasPrefix_spec.
    + destruct (strings.HasPrefix s "https://") eqn:E2; cbn [negb].
      * right. now apply HasPrefix_spec.
      * left. now exists s.
Qed.

Lemma add_scheme_fragment c0 s :
  has_byte "#"%char (add_scheme c0 s) <-> has_byte "#"%char s.
Proof.
  assert (Hlit : forall p, ~ has_byte "#"%char p ->
            (has_byte "#"%char (p ++ s) <-> has_byte "#"%char s)).
  { intros p Hp. rewrite has_byte_app. tauto. }
  unfold add_scheme. destruct (runeIs (utf8.byte c0) xri_global_context_symbol).
  - apply Hlit. intros H. apply Contains_char in H. discriminate H.
  - destruct (_ && _); [|tauto].
    apply Hlit. intros H. apply Contains_char in H. discriminate H.
Qed.

(** [identifier[0]] is out of range for exactly two identifiers. *)
Lemma normalize_panics_only_on_empty identifier p :
  normalize identifier = Panic p
  <-> p = IndexOutOfRange /\ (identifier = "" \/ identifier = "xri://").
Proof.
  unfold normalize. pose proof (strip_xri_empty identifier) as H.
  destruct (strip_xri identifier) as [|c0 s].
  - split.
    + intros [= <-]. split; [reflexivity | now apply H].
    + now intros [-> _].
  - split; [discriminate|]. intros [_ Hid]. apply H in Hid. discriminate Hid.
Qed.

(** X2.  An identifier without [#] is passed to [discover] with a scheme:
    what [RedirectURI] normalises it to starts with [http://] or
    [https://]. *)
Theorem normalize_gives_a_scheme identifier normalized :
  normalize identifier = Ret normalized ->
  ~ has_byte "#"%char identifier ->
  starts_with "http://" normalized \/ starts_with "https://" normalized.
Proof.
  unfold normalize. intros H Hb.
  pose proof (has_byte_strip_xri "#"%char identifier) as Hs.
  destruct (strip_xri identifier) as [|c0 s]; [discriminate H|].
  injection H as <-. rewrite cut_fragment_none.
  - apply add_scheme_has_scheme.
  - rewrite add_scheme_fragment. tauto.
Qed.

Lemma normalize_gives_a_scheme_witness :
  normalize "example.com" = Ret "http://example.com"
  /\ (starts_with "http://" "http://example.com"
      \/ starts_with "https://" "http://example.com").
Proof.
  split; [reflexivity|].
  apply (normalize_gives_a_scheme "example.com" "http://example.com" eq_refl).
  intros H. apply Contains_char in H. discriminate H.
Defined.

Lemma normalize_scheme_fixed s :
  starts_with "http://" s \/ starts_with "https://" s ->
  ~ has_byte "#"%char s ->
  normalize s = Ret s.
Proof.
  intros Hs Hb.
  assert (Hh : exists r, s = String "h"%char r
                 /\ (strings.HasPrefix s "http://" = true
                     \/ strings.HasPrefix s "https://" = true)).
  { destruct Hs as [[r ->]|[r ->]].
    - exists ("ttp://" ++ r). split; [reflexivity|]. left.
      apply HasPrefix_spec. now exists r.
    - exists ("ttps://" ++ r). split; [reflexivity|]. right.
      apply HasPrefix_spec. now exists r. }
  destruct Hh as (r & -> & Hp).
  unfold normalize, strip_xri. cbn [strings.HasPrefix Ascii.eqb Bool.eqb].
  cbv iota. f_equal. rewrite cut_fragment_none.
  - unfold add_scheme.
    replace (runeIs (utf8.byte "h") xri_global_context_symbol) with false by reflexivity.
    destruct Hp as [-> | Hp]; [reflexivity|]. rewrite Hp.
    now rewrite andb_false_r.
  - now rewrite add_scheme_fragment.
Qed.

Lemma normalize_fragment_fixed v :
  normalize (String "#"%char v) = Ret (String "#"%char v).
Proof. reflexivity. Qed.

(** X3.  Normalising is idempotent: what [RedirectURI] passes to
    [discover] is normalised to itself. *)
Theorem normalize_idempotent identifier normalized :
  normalize identifier = Ret normalized ->
  normalize normalized = Ret normalized.
Proof.
  intros H. unfold normalize in H.
  destruct (strip_xri identifier) as [|c0 s]; [discriminate H|].
  injection H as <-.
  set (t := add_scheme c0 (String c0 s)).
  pose proof (add_scheme_has_scheme c0 (String c0 s)) as Hs. fold t in Hs.
  clearbody t. unfold cut_fragment.
  pose proof (Index_char_lower "#"%char t) as Hlo.
  destruct (Z.eqb_spec (strings.Index t "#") (-1)) as [E|E]; cbn [negb].
  - apply normalize_scheme_fixed; [exact Hs|]. now apply Index_char_none.
  - destruct (Index_char_found "#"%char t) as (k & v & -> & Hk & Hi); [lia|].
    rewrite Hi. unfold strings.len. rewrite Nat2Z.id, slice_from_app.
    apply normalize_fragment_fixed.
Qed.

Lemma normalize_idempotent_witness :
  normalize "xri://=example" = Ret "http://xri.net/=example"
  /\ normalize "http://xri.net/=example" = Ret "http://xri.net/=example".
Proof.
  split; [reflexivity|].
  exact (normalize_idempotent "xri://=example" "http://xri.net/=example" eq_refl).
Defined.

(** X4.  An XRI, that is an identifier whose first byte is one of
    [= @ + $ ! (], goes through the proxy [http://xri.net/], with or
    without a leading [xri://], which is cut. *)
Theorem normalize_xri c0 s :
  has_byte c0 "=@+$!(" ->
  ~ has_byte "#"%char (String c0 s) ->
  normalize (String c0 s) = Ret ("http://xri.net/" ++ String c0 s)
  /\ normalize ("xri://" ++ String c0 s) = Ret ("http://xri.net/" ++ String c0 s).
Proof.
  intros Hc Hb.
  assert (Hr : runeIs (utf8.byte c0) xri_global_context_symbol = true)
    by now apply runeIs_xri.
  assert (Hx : Ascii.eqb c0 "x" = false).
  { destruct (Ascii.eqb_spec c0 "x") as [->|]; [|reflexivity].
    vm_compute in Hr. discriminate Hr. }
  assert (Hcut : cut_fragment ("http://xri.net/" ++ String c0 s)
                 = "http://xri.net/" ++ String c0 s).
  { apply cut_fragment_none. rewrite has_byte_app. intros [H|H]; [|tauto].
    apply Contains_char in H. discriminate H. }
  split.
  - unfold normalize, strip_xri. cbn [strings.HasPrefix]. rewrite Hx.
    unfold add_scheme. rewrite Hr. now rewrite Hcut.
  - unfold normalize, strip_xri.
    replace (strings.HasPrefix ("xri://" ++ String c0 s) "xri://") with true
      by (symmetry; apply HasPrefix_spec; now exists (String c0 s)).
    change 6%nat with (String.length "xri://"). rewrite slice_from_app.
    unfold add_scheme. rewrite Hr. now rewrite Hcut.
Qed.

Lemma normalize_xri_witness :
  normalize "=example" = Ret "http://xri.net/=example"
  /\ normalize "xri://=example" = Ret "http://xri.net/=example".
Proof.
  apply (normalize_xri "="%char "example").
  - now left.
  - intros H. apply Contains_char in H. discriminate H.
Defined.

(** ** [validateError] *)

Lemma validateError_String_default n :
  n < 0 \/ 3 < n -> validateError_String n = "Invalid error.".
Proof.
  intros Hn. unfold validateError_String.
  destruct (Z.eqb_spec n 0); [lia|]. destruct (Z.eqb_spec n 1); [lia|].
  destruct (Z.eqb_spec n 2); [lia|]. destruct (Z.eqb_spec n 3); [lia|].
  reflexivity.
Qed.

(** X5.  The text of [Error()] tells the four errors of [Validate] apart:
    two values of the underlying [uint8] print the same text exactly when
    they are equal or both lie outside the four constants.  So none of the
    four prints as another, and none prints as the text of an undeclared
    value. *)
Theorem validateError_messages n n' :
  0 <= n < 256 -> 0 <= n' < 256 ->
  (validateError_Error n = validateError_Error n'
   <-> n = n' \/ (3 < n /\ 3 < n')).
Proof.
  intros Hn Hn'. unfold validateError_Error.
  assert (Hc : forall k, 0 <= k < 256 ->
            k = 0 \/ k = 1 \/ k = 2 \/ k = 3 \/ 3 < k) by (intros; lia).
  split.
  - intros H.
    destruct (Hc n Hn) as [->|[->|[->|[->|Hk]]]];
      destruct (Hc n' Hn') as [->|[->|[->|[->|Hk']]]];
      try (left; reflexivity); try (right; lia);
      try (rewrite (validateError_String_default n') in H by lia);
      try (rewrite (validateError_String_default n) in H by lia);
      discriminate H.
  - intros [->|[Hk Hk']]; [reflexivity|].
    now rewrite !validateError_String_default by lia.
Qed.

Lemma validateError_messages_witness :
  validateError_Error (validateError_code NS_INCORRECT)
  <> validateError_Error (validateError_code INCORRECT_MODE)
  /\ validateError_Error (validateError_code NO_OP_ENDPOINT)
     <> validateError_Error 200.
Proof.
  split; intros H.
  - apply (validateError_messages 2 3) in H; lia.
  - apply (validateError_messages 0 200) in H; lia.
Defined.

(** ** [discoverFromHTMLNode] *)

Lemma content_of_found attrs loc :
  content_of attrs = (loc, true) <->
  exists pre a post,
    attrs = (pre ++ a :: post)%list /\ Name a = "content" /\ Value a = loc
    /\ Forall (fun b => Name b <> "content") pre.
Proof.
  induction attrs as [|v attrs IH]; cbn [content_of].
  - split; [discriminate|]. intros (pre & a & post & E & _). now destruct pre.
  - destruct (String.eqb_spec (Name v) "content") as [Hv|Hv].
    + split.
      * intros [= <-]. exists [], v, attrs. repeat split; [exact Hv | constructor].
      * intros (pre & a & post & E & Ha & Hl & Hp).
        destruct pre as [|b pre]; cbn in E; injection E as -> ->.
        -- now rewrite Hl.
        -- apply Forall_inv in Hp. contradiction.
    + rewrite IH. split.
      * intros (pre & a & post & -> & Ha & Hl & Hp).
        exists (v :: pre), a, post. repeat split; try assumption.
        now constructor.
      * intros (pre & a & post & E & Ha & Hl & Hp).
        destruct pre as [|b pre]; cbn in E; injection E as -> ->.
        -- contradiction.
        -- exists pre, a, post. repeat split; try assumption.
           now apply Forall_inv_tail in Hp.
Qed.

Lemma content_of_missing attrs loc : content_of attrs = (loc, false) -> loc = "".
Proof.
  induction attrs as [|v attrs IH]; cbn [content_of]; [congruence|].
  destruct (String.eqb (Name v) "content"); [discriminate | exact IH].
Qed.

(** X6.  [discoverFromHTMLNode] looks at the first selected element only.
    It reports a location exactly when that element has an attribute named
    [content], and then gives the value of the first such attribute; when
    it reports none, the location is empty. *)
Theorem discoverFromHTMLNode_first_content w root loc :
  (discoverFromHTMLNode w root = (loc, true) <->
   exists elm others pre a post,
     yadisGetter_Apply w root = elm :: others
     /\ Attr elm = (pre ++ a :: post)%list
     /\ Name a = "content" /\ Value a = loc
     /\ Forall (fun b => Name b <> "content") pre)
  /\ (discoverFromHTMLNode w root = (loc, false) -> loc = "").
Proof.
  unfold discoverFromHTMLNode.
  destruct (yadisGetter_Apply w root) as [|elm others].
  - split; [|congruence]. split; [discriminate|].
    intros (? & ? & ? & ? & ? & E & _). discriminate E.
  - split; [|apply content_of_missing].
    rewrite content_of_found. split.
    + intros (pre & a & post & H). now exists elm, others, pre, a, post.
    + intros (? & ? & pre & a & post & [= <- <-] & H). now exists pre, a, post.
Qed.

(** ** More on [discover] *)

(** One hop of [discover], spelled out. *)
Lemma discover_hop fuel w identifier st :
  discover (S fuel) w identifier st =
  match NewRequest_err w identifier with
  | Some err => (Ret (None, Some err), st)
  | None =>
      let req := discovery_request identifier in
      match http w (requests st) req with
      | Fail None err => (Ret (None, Some err), received st req [])
      | Fail (Some r) err => (Ret (None, Some err), received st req [reply_body r])
      | Ok r =>
          let st1 := received st req [reply_body r] in
          let b := length (bodies st) in
          let contentType := url.Get (reply_header r) "Content-Type" in
          let h := url.Get (reply_header r) "X-Xrds-Location" in
          if strings.HasPrefix contentType "application/xrds+xml"
          then (Ret (Some b, None), st1)
          else if negb (String.eqb h "") then discover fuel w h st1
          else if strings.HasPrefix contentType "text/html" then
            match h5_Parse w (reply_body r) with
            | inr e => (Ret (None, Some e), st1)
            | inl tree =>
                match discoverFromHTMLNode w tree with
                | (str, true) => discover fuel w str st1
                | (_, false) => (Ret (Some b, Some not_located), st1)
                end
            end
          else (Ret (Some b, Some not_located), st1)
      end
  end.
Proof.
  cbn [discover]. destruct (NewRequest_err w identifier) eqn:Hu; [reflexivity|].
  unfold mbind, M_bind, send, http. fold (discovery_request identifier).
  change (URL (discovery_request identifier)) with identifier. rewrite Hu.
  destruct (Do w (requests st) (discovery_request identifier)) as [r|[r|] e];
    try reflexivity.
  cbv beta iota zeta. cbn [Header Body].
  destruct (strings.HasPrefix (url.Get (reply_header r) "Content-Type")
              "application/xrds+xml"); [reflexivity|].
  destruct (negb (String.eqb (url.Get (reply_header r) "X-Xrds-Location") ""));
    [reflexivity|].
  destruct (strings.HasPrefix (url.Get (reply_header r) "Content-Type")
              "text/html"); [|reflexivity].
  unfold read_body. cbn [bodies].
  rewrite list_lookup_middle by reflexivity. cbv beta iota.
  destruct (h5_Parse w (reply_body r)) as [tree|]; [|reflexivity].
  destruct (discoverFromHTMLNode w tree) as [str [|]]; reflexivity.
Qed.

Lemma is_discovery_request_made identifier :
  is_discovery_request (discovery_request identifier).
Proof. repeat split. Qed.

(** Everything [discover] does to the state. *)
Lemma discover_frame fuel : forall w identifier st,
  let st' := snd (discover fuel w identifier st) in
  heap st' = heap st
  /\ closed st' = closed st
  /\ exists new got,
       requests st' = (requests st ++ new)%list
       /\ bodies st' = (bodies st ++ got)%list
       /\ Forall is_discovery_request new
       /\ (length new <= fuel)%nat
       /\ (length got <= length new)%nat.
Proof.
  induction fuel as [|fuel IH]; intros w identifier st.
  - cbn. repeat split. exists [], []. rewrite !app_nil_r.
    repeat split; constructor.
  - assert (Hstay : let st' := st in
              heap st' = heap st /\ closed st' = closed st
              /\ exists new got,
                  requests st' = (requests st ++ new)%list
                  /\ bodies st' = (bodies st ++ got)%list
                  /\ Forall is_discovery_request new
                  /\ (length new <= S fuel)%nat
                  /\ (length got <= length new)%nat).
    { cbn. repeat split. exists [], []. rewrite !app_nil_r.
      repeat split; [constructor | cbn; lia | cbn; lia]. }
    assert (Hone : forall got, (length got <= 1)%nat ->
              let st' := received st (discovery_request identifier) got in
              heap st' = heap st /\ closed st' = closed st
              /\ exists new got,
                  requests st' = (requests st ++ new)%list
                  /\ bodies st' = (bodies st ++ got)%list
                  /\ Forall is_discovery_request new
                  /\ (length new <= S fuel)%nat
                  /\ (length got <= length new)%nat).
    { intros got Hg. cbn. repeat split.
      exists [discovery_request identifier], got.
      repeat split; [| cbn; lia | exact Hg].
      constructor; [apply is_discovery_request_made | constructor]. }
    assert (Hmore : forall r u,
              let st' := snd (discover fuel w u
                                (received st (discovery_request identifier)
                                   [reply_body r])) in
              heap st' = heap st /\ closed st' = closed st
              /\ exists new got,
                  requests st' = (requests st ++ new)%list
                  /\ bodies st' = (bodies st ++ got)%list
                  /\ Forall is_discovery_request new
                  /\ (length new <= S fuel)%nat
                  /\ (length got <= length new)%nat).
    { intros r u.
      destruct (IH w u (received st (discovery_request identifier)
                          [reply_body r]))
        as (Hh & Hc & new & got & Hr & Hb & Hf & Hn & Hg).
      cbv zeta. rewrite Hh, Hc, Hr, Hb. cbn [heap closed requests bodies received].
      repeat split. exists (discovery_request identifier :: new),
                           (reply_body r :: got).
      rewrite <- !app_assoc. repeat split; [| cbn; lia | cbn; lia].
      constructor; [apply is_discovery_request_made | exact Hf]. }
    rewrite discover_hop.
    destruct (NewRequest_err w identifier); [exact Hstay|].
    cbv zeta.
    destruct (http w (requests st) (discovery_request identifier)) as [r|[r|] e];
      [| apply Hone; cbn; lia | apply Hone; cbn; lia].
    destruct (strings.HasPrefix _ "application/xrds+xml");
      [apply Hone; cbn; lia|].
    destruct (negb _); [apply Hmore|].
    destruct (strings.HasPrefix _ "text/html"); [|apply Hone; cbn; lia].
    destruct (h5_Parse w (reply_body r)) as [tree|]; [|apply Hone; cbn; lia].
    destruct (discoverFromHTMLNode w tree) as [str [|]];
      [apply Hmore | apply Hone; cbn; lia].
Qed.

(** X7.  Whatever the servers answer, [discover] only ever sends GET
    requests with the header [Accept: application/xrds+xml] and no body;
    it writes to no map and closes no body. *)
Theorem discover_sends_only_GETs fuel w identifier st :
  let st' := snd (discover fuel w identifier st) in
  heap st' = heap st
  /\ closed st' = closed st
  /\ exists new,
       requests st' = (requests st ++ new)%list
       /\ Forall is_discovery_request new.
Proof.
  destruct (discover_frame fuel w identifier st)
    as (Hh & Hc & new & got & Hr & _ & Hf & _).
  cbv zeta. repeat split; [exact Hh | exact Hc|]. now exists new.
Qed.

(** What [discover] returns. *)
Lemma discover_returns fuel : forall w identifier st rd e st',
  discover fuel w identifier st = (Ret (rd, e), st') ->
  (forall b, rd = Some b ->
             S b = length (bodies st') /\ (length (bodies st) <= b)%nat)
  /\ (rd = None -> e <> None)
  /\ (e = None -> rd <> None).
Proof.
  induction fuel as [|fuel IH]; intros w identifier st rd e st' H;
    [discriminate H|].
  assert (Hlast : forall r x,
            (Ret (Some (length (bodies st)), x),
             received st (discovery_request identifier) [reply_body r])
            = (Ret (rd, e), st') ->
            (forall b, rd = Some b ->
                S b = length (bodies st') /\ (length (bodies st) <= b)%nat)
            /\ (rd = None -> e <> None) /\ (e = None -> rd <> None)).
  { intros r x [= <- <- <-]. repeat split.
    - injection H0 as <-. cbn. rewrite length_app. cbn. lia.
    - injection H0 as <-. lia.
    - discriminate.
    - discriminate. }
  assert (Hnil : forall x s,
            (Ret (None, Some x), s) = (Ret (rd, e), st') ->
            (forall b, rd = Some b ->
                S b = length (bodies st') /\ (length (bodies st) <= b)%nat)
            /\ (rd = None -> e <> None) /\ (e = None -> rd <> None)).
  { intros x s [= <- <- <-]. repeat split; discriminate. }
  assert (Hrec : forall r u,
            discover fuel w u
              (received st (discovery_request identifier) [reply_body r])
            = (Ret (rd, e), st') ->
            (forall b, rd = Some b ->
                S b = length (bodies st') /\ (length (bodies st) <= b)%nat)
            /\ (rd = None -> e <> None) /\ (e = None -> rd <> None)).
  { intros r u Hd. destruct (IH _ _ _ _ _ _ Hd) as (Hb & Hn & He).
    repeat split; try assumption.
    - now apply Hb.
    - apply Hb in H0 as [_ Hle]. cbn in Hle. rewrite length_app in Hle. lia. }
  rewrite discover_hop in H.
  destruct (NewRequest_err w identifier); [now apply (Hnil _ _ H)|].
  cbv zeta in H.
  destruct (http w (requests st) (discovery_request identifier)) as [r|[r|] x];
    [| now apply (Hnil _ _ H) | now apply (Hnil _ _ H)].
  destruct (strings.HasPrefix _ "application/xrds+xml");
    [now apply (Hlast _ _ H)|].
  destruct (negb _); [now apply (Hrec _ _ H)|].
  destruct (strings.HasPrefix _ "text/html"); [|now apply (Hlast _ _ H)].
  destruct (h5_Parse w (reply_body r)) as [tree|]; [|now apply (Hnil _ _ H)].
  destruct (discoverFromHTMLNode w tree) as [str [|]];
    [now apply (Hrec _ _ H) | now apply (Hlast _ _ H)].
Qed.

Lemma discover_never_panics fuel : forall w identifier st p st',
  discover fuel w identifier st <> (Panic p, st').
Proof.
  induction fuel as [|fuel IH]; intros w identifier st p st'; [discriminate|].
  rewrite discover_hop.
  destruct (NewRequest_err w identifier); [discriminate|].
  cbv zeta.
  destruct (http w (requests st) (discovery_request identifier)) as [r|[r|] x];
    try discriminate.
  destruct (strings.HasPrefix _ "application/xrds+xml"); [discriminate|].
  destruct (negb _); [apply IH|].
  destruct (strings.HasPrefix _ "text/html"); [|discriminate].
  destruct (h5_Parse w (reply_body r)) as [tree|]; [|discriminate].
  destruct (discoverFromHTMLNode w tree) as [str [|]]; [apply IH | discriminate].
Qed.

(** X8.  [discover] never returns [nil] without an error, nor a success
    without a body; and a body it returns is always the one fetched
    last. *)
Theorem discover_returns_last_body fuel w identifier st rd e st' :
  discover fuel w identifier st = (Ret (rd, e), st') ->
  (forall b, rd = Some b -> S b = length (bodies st'))
  /\ (rd = None -> e <> None)
  /\ (e = None -> rd <> None).
Proof.
  intros H. destruct (discover_returns _ _ _ _ _ _ _ H) as (Hb & Hn & He).
  repeat split; try assumption. intros b Hrd. now apply Hb.
Qed.

Lemma discover_returns_last_body_witness :
  exists st',
    discover 2 w_yadis "http://user.example" st0 = (Ret (Some 1%nat, None), st')
    /\ length (bodies st') = 2%nat.
Proof.
  exists (snd (discover 2 w_yadis "http://user.example" st0)).
  assert (H : discover 2 w_yadis "http://user.example" st0
              = (Ret (Some 1%nat, None),
                 snd (discover 2 w_yadis "http://user.example" st0)))
    by (vm_compute; reflexivity).
  split; [exact H|].
  destruct (discover_returns_last_body _ _ _ _ _ _ _ H) as (Hb & _).
  symmetry. now apply Hb.
Defined.

(** X9.  [discover] has no hop limit and detects no cycle: against
    servers that always name another location it never returns, and each
    unit of fuel of the model is spent on one more GET. *)
Theorem discover_follows_redirects_forever w :
  always_redirects w ->
  forall fuel identifier st,
    fst (discover fuel w identifier st) = NoFuel
    /\ length (requests (snd (discover fuel w identifier st)))
       = (length (requests st) + fuel)%nat.
Proof.
  intros [Hurl Hw]. induction fuel as [|fuel IH]; intros identifier st.
  - cbn. split; [reflexivity | lia].
  - rewrite discover_hop, Hurl. cbv zeta.
    destruct (Hw (requests st) (discovery_request identifier))
      as (r & -> & -> & Hh).
    destruct (String.eqb_spec (url.Get (reply_header r) "X-Xrds-Location") "")
      as [E|_]; [contradiction|].
    cbn [negb].
    destruct (IH (url.Get (reply_header r) "X-Xrds-Location")
                (received st (discovery_request identifier) [reply_body r]))
      as [H1 H2].
    split; [exact H1|]. rewrite H2. cbn. rewrite length_app. cbn. lia.
Qed.

Lemma discover_follows_redirects_forever_witness :
  fst (discover 5 w_loop "http://loop.example/" st0) = NoFuel
  /\ length (requests (snd (discover 5 w_loop "http://loop.example/" st0)))
     = 5%nat.
Proof.
  apply (discover_follows_redirects_forever w_loop).
  split; [reflexivity|]. intros hist req. eexists.
  split; [reflexivity|]. split; [reflexivity|].
  vm_compute. discriminate.
Defined.

(** ** More on [getIdentifiers] *)

(** [getIdentifiers] on a body, spelled out. *)
Lemma getIdentifiers_run w xrds st :
  getIdentifiers w (Some xrds) st =
  (Ret match bodies st !! xrds with
       | None => ("", "", Some (LibError "invalid body"))
       | Some c =>
           match body_err c with
           | Some e => ("", "", Some e)
           | None =>
               let '(OP, Claimed) :=
                 fold_left getIdentifiers_step
                   (fst (xml_Unmarshal w (body_data c))) ("", "") in
               (OP, Claimed, None)
           end
       end,
   closing st xrds).
Proof.
  unfold getIdentifiers, ReadAll, read_body, mbind, M_bind, mret, M_ret, Close.
  destruct (bodies st !! xrds) as [c|]; cbv beta iota; cbn [body_err body_data].
  - destruct (body_err c); [reflexivity|].
    destruct (fold_left _ _ _). reflexivity.
  - reflexivity.
Qed.

(** X10.  Given a body, [getIdentifiers] always returns, and it closes
    that body exactly once whether reading it failed or not, touching
    nothing else; given [nil] it panics. *)
Theorem getIdentifiers_closes_the_body w st :
  (forall xrds, exists r,
      getIdentifiers w (Some xrds) st = (Ret r, closing st xrds))
  /\ getIdentifiers w None st = (Panic NilDereference, st).
Proof.
  split; [|reflexivity]. intros xrds. rewrite getIdentifiers_run. eauto.
Qed.

(** X11.  When the body cannot be read, or when no [Service] entry has
    the type of a role, [getIdentifiers] gives the empty string for that
    role: a type that starts with neither the [server] nor the [signon]
    type is skipped. *)
Theorem getIdentifiers_without_match w xrds st c OP Claimed e st' :
  bodies st !! xrds = Some c ->
  getIdentifiers w (Some xrds) st = (Ret (OP, Claimed, e), st') ->
  let services := fst (xml_Unmarshal w (body_data c)) in
  (body_err c <> None -> OP = "" /\ Claimed = "")
  /\ (Forall (fun v => ~ is_server v) services -> OP = "")
  /\ (Forall (fun v => ~ is_signon v) services -> Claimed = "").
Proof.
  intros Hc H services. rewrite getIdentifiers_run, Hc in H.
  destruct (body_err c) as [x|].
  - injection H as <- <- _ _. repeat split.
  - fold services in H.
    destruct (fold_left getIdentifiers_step services ("", "")) as [o cl] eqn:Hf.
    injection H as <- <- _ _. split; [congruence|]. split; intros Hs.
    + apply (f_equal fst) in Hf. now rewrite getIdentifiers_fold_fst in Hf.
    + apply (f_equal snd) in Hf. now rewrite getIdentifiers_fold_snd in Hf.
Qed.

Lemma getIdentifiers_without_match_witness :
  getIdentifiers w_empty_xrds (Some 0%nat) st_xrds
  = (Ret ("", "", None), closing st_xrds 0%nat).
Proof.
  assert (H : exists OP Claimed e,
             getIdentifiers w_empty_xrds (Some 0%nat) st_xrds
             = (Ret (OP, Claimed, e), closing st_xrds 0%nat)
             /\ e = None).
  { eexists _, _, _. split; [vm_compute; reflexivity | reflexivity]. }
  destruct H as (OP & Claimed & e & H & ->).
  destruct (getIdentifiers_without_match w_empty_xrds 0%nat st_xrds
              {| body_data := "<xrds>"; body_err := None |}
              OP Claimed None _ eq_refl H) as (_ & Ho & Hc).
  rewrite H, Ho, Hc; [reflexivity | constructor | constructor].
Defined.

(** ** More on [RedirectURI] *)

(** [RedirectURI] once the identifier is normalised. *)
Lemma RedirectURI_run fuel w identifier realm returnPoint st normalized :
  normalize identifier = Ret normalized ->
  RedirectURI fuel w identifier realm returnPoint st =
  match discover fuel w normalized st with
  | (Ret (rdClr, Some e), st1) => (Ret ("", Some e), st1)
  | (Ret (rdClr, None), st1) =>
      match getIdentifiers w rdClr st1 with
      | (Ret (endpoint, Claimed, Some e), st2) => (Ret ("", Some e), st2)
      | (Ret (endpoint, Claimed, None), st2) =>
          (Ret (redirect_url endpoint Claimed realm returnPoint, None), st2)
      | (Panic p, st2) => (Panic p, st2)
      | (NoFuel, st2) => (NoFuel, st2)
      end
  | (Panic p, st1) => (Panic p, st1)
  | (NoFuel, st1) => (NoFuel, st1)
  end.
Proof.
  intros Hn. unfold RedirectURI. rewrite Hn. unfold mbind, M_bind.
  destruct (discover fuel w normalized st) as [[[rd [e|]]| |] st1];
    try reflexivity.
  cbv beta iota.
  destruct (getIdentifiers w rd st1) as [[[[ep cl] [e|]]| |] st2];
    reflexivity.
Qed.

(** X12.  [RedirectURI] panics on exactly two identifiers, the empty string
    and [xri://], whatever the servers answer; the panic is the index out
    of range of [identifier[0]], before anything is sent. *)
Theorem RedirectURI_panics_only_on_empty fuel w identifier realm returnPoint
    st p st' :
  RedirectURI fuel w identifier realm returnPoint st = (Panic p, st')
  <-> p = IndexOutOfRange /\ st' = st
      /\ (identifier = "" \/ identifier = "xri://").
Proof.
  destruct (normalize identifier) as [normalized|q|] eqn:Hn.
  - split.
    + intros H. exfalso. rewrite (RedirectURI_run _ _ _ _ _ _ _ Hn) in H.
      destruct (discover fuel w normalized st) as [[[rd [e|]]|q|] st1] eqn:Hd;
        try discriminate H.
      * destruct (discover_returns _ _ _ _ _ _ _ Hd) as (_ & _ & Hrd).
        destruct rd as [b|]; [|now apply Hrd].
        rewrite getIdentifiers_run in H.
        destruct (bodies st1 !! b) as [c|]; [|discriminate H].
        destruct (body_err c); [discriminate H|].
        destruct (fold_left _ _ _). discriminate H.
      * exact (discover_never_panics _ _ _ _ _ _ Hd).
    + intros (_ & _ & Hid).
      assert (Hp : normalize identifier = Panic IndexOutOfRange)
        by (destruct Hid as [-> | ->]; reflexivity).
      congruence.
  - unfold RedirectURI. rewrite Hn.
    apply normalize_panics_only_on_empty in Hn as [-> Hid].
    split.
    + intros [= <- <-]. auto.
    + intros (-> & -> & _). reflexivity.
  - unfold normalize in Hn. destruct (strip_xri identifier); discriminate Hn.
Qed.

(** X13.  Whenever [RedirectURI] returns an error, the URL it returns with
    it is empty. *)
Theorem RedirectURI_error_has_no_url fuel w identifier realm returnPoint
    st u e st' :
  RedirectURI fuel w identifier realm returnPoint st = (Ret (u, Some e), st') ->
  u = "".
Proof.
  intros H. destruct (normalize identifier) as [normalized|q|] eqn:Hn.
  - rewrite (RedirectURI_run _ _ _ _ _ _ _ Hn) in H.
    destruct (discover fuel w normalized st) as [[[rd [x|]]|q|] st1];
      try discriminate H.
    + now injection H as <- _ _.
    + destruct (getIdentifiers w rd st1) as [[[[ep cl] [x|]]|q|] st2];
        try discriminate H.
      now injection H as <- _ _.
  - unfold RedirectURI in H. rewrite Hn in H. discriminate H.
  - unfold RedirectURI in H. rewrite Hn in H. discriminate H.
Qed.

Lemma RedirectURI_error_has_no_url_witness :
  fst (RedirectURI 1 w_down "example.com" "https://rp.example" "/cb" st0)
  = Ret ("", Some (LibError "dial tcp: connection refused")).
Proof.
  assert (H : exists u,
             RedirectURI 1 w_down "example.com" "https://rp.example" "/cb" st0
             = (Ret (u, Some (LibError "dial tcp: connection refused")),
                snd (RedirectURI 1 w_down "example.com" "https://rp.example"
                       "/cb" st0)))
    by (eexists; vm_compute; reflexivity).
  destruct H as [u H].
  rewrite H. cbn [fst].
  now rewrite (RedirectURI_error_has_no_url _ _ _ _ _ _ _ _ _ H).
Defined.

(** X14.  A URL that [http.NewRequest] rejects is never fetched:
    [RedirectURI] returns that error and sends nothing. *)
Theorem RedirectURI_rejected_url fuel w identifier realm returnPoint st
    normalized e :
  normalize identifier = Ret normalized ->
  NewRequest_err w normalized = Some e ->
  RedirectURI (S fuel) w identifier realm returnPoint st
  = (Ret ("", Some e), st).
Proof.
  intros Hn He. rewrite (RedirectURI_run _ _ _ _ _ _ _ Hn).
  now rewrite discover_hop, He.
Qed.

Lemma RedirectURI_rejected_url_witness :
  RedirectURI 1 w_bad_url "%zz" "https://rp.example" "/cb" st0
  = (Ret ("", Some (LibError "invalid URL escape")), st0).
Proof.
  exact (RedirectURI_rejected_url 0 w_bad_url "%zz" "https://rp.example" "/cb"
           st0 "http://%zz" _ eq_refl eq_refl).
Defined.

(** A body received and closed leaves the open bodies as they were. *)
Lemma filter_agree {A} (P Q : A -> Prop) `{!forall x, Decision (P x)}
    `{!forall x, Decision (Q x)} (l : list A) :
  (forall x, x ∈ l -> (P x <-> Q x)) -> filter P l = filter Q l.
Proof.
  induction l as [|x l IH]; intros Hl; [reflexivity|].
  rewrite !filter_cons.
  rewrite IH by (intros y Hy; apply Hl; now right).
  pose proof (Hl x ltac:(now left)) as Hx.
  destruct (decide (P x)), (decide (Q x)); tauto.
Qed.

Lemma open_bodies_closed_again st hp rq c :
  open_bodies {| heap := hp; requests := rq;
                 bodies := bodies st ++ [c];
                 closed := closed st ++ [length (bodies st)] |}
  = open_bodies st.
Proof.
  unfold open_bodies. cbn [bodies closed]. rewrite length_app. cbn [length].
  rewrite seq_app, filter_app. cbn [seq Nat.add].
  rewrite filter_cons_False, filter_nil, app_nil_r.
  - apply filter_agree. intros b Hb. apply elem_of_seq in Hb.
    rewrite elem_of_app, list_elem_of_singleton.
    split; [tauto|]. intros H [H1|H1]; [tauto | lia].
  - intros H. apply H. apply elem_of_app. right. now left.
Qed.

(** X15.  When the first response already is the XRDS document and it can
    be read, [RedirectURI] sends that one GET, returns the URL made of the
    last [server] and [signon] entries, and has closed the body it
    fetched: no body is left open that was not open before. *)
Theorem RedirectURI_single_hop fuel w identifier realm returnPoint st
    normalized r :
  normalize identifier = Ret normalized ->
  NewRequest_err w normalized = None ->
  http w (requests st) (discovery_request normalized) = Ok r ->
  starts_with "application/xrds+xml" (url.Get (reply_header r) "Content-Type") ->
  body_err (reply_body r) = None ->
  exists endpoint Claimed st',
    RedirectURI (S fuel) w identifier realm returnPoint st
    = (Ret (redirect_url endpoint Claimed realm returnPoint, None), st')
    /\ (endpoint, Claimed)
       = fold_left getIdentifiers_step
           (fst (xml_Unmarshal w (body_data (reply_body r)))) ("", "")
    /\ requests st' = (requests st ++ [discovery_request normalized])%list
    /\ open_bodies st' = open_bodies st.
Proof.
  intros Hn Hu Hr Hct Hb. apply HasPrefix_spec in Hct.
  rewrite (RedirectURI_run _ _ _ _ _ _ _ Hn), discover_hop, Hu.
  cbv zeta. rewrite Hr, Hct, getIdentifiers_run. cbn [received bodies].
  rewrite list_lookup_middle by reflexivity. rewrite Hb.
  destruct (fold_left getIdentifiers_step _ _) as [ep cl].
  exists ep, cl. eexists. split; [reflexivity|]. split; [reflexivity|].
  split; [reflexivity|]. exact (open_bodies_closed_again st _ _ _).
Qed.

Lemma RedirectURI_single_hop_witness :
  exists u st',
    RedirectURI 1 w_yadis "user.example/xrds" "https://rp.example" "/cb" st0
    = (Ret (u, None), st')
    /\ length (requests st') = 1%nat /\ open_bodies st' = [].
Proof.
  destruct (RedirectURI_single_hop 0 w_yadis "user.example/xrds"
              "https://rp.example" "/cb" st0 "http://user.example/xrds"
              {| reply_header :=
                   list_to_map [("Content-Type", ["application/xrds+xml"])];
                 reply_body := {| body_data := "<xrds>"; body_err := None |} |})
    as (ep & cl & st' & H & _ & Hr & Ho).
  - reflexivity.
  - reflexivity.
  - reflexivity.
  - now exists "".
  - reflexivity.
  - exists (redirect_url ep cl "https://rp.example" "/cb"), st'.
    split; [exact H|]. rewrite Hr, Ho. split; reflexivity.
Defined.

(** X16.  A discovery document without any [server] or [signon] entry,
    for one because it does not parse, is no error to [RedirectURI]: it
    returns a URL that has no endpoint before the [?] and carries the
    [identifier_select] sentinel as the claimed identity. *)
Theorem RedirectURI_without_endpoint fuel w identifier realm returnPoint st
    normalized b st1 c :
  normalize identifier = Ret normalized ->
  discover fuel w normalized st = (Ret (Some b, None), st1) ->
  bodies st1 !! b = Some c ->
  body_err c = None ->
  Forall (fun v => ~ is_server v) (fst (xml_Unmarshal w (body_data c))) ->
  Forall (fun v => ~ is_signon v) (fst (xml_Unmarshal w (body_data c))) ->
  RedirectURI fuel w identifier realm returnPoint st
  = (Ret ("?" ++ redirect_query identifier_select realm returnPoint, None),
     closing st1 b).
Proof.
  intros Hn Hd Hc Hb Hs Hg.
  rewrite (RedirectURI_run _ _ _ _ _ _ _ Hn), Hd, getIdentifiers_run, Hc, Hb.
  pose proof (getIdentifiers_fold_fst _ ("", "") Hs) as H1.
  pose proof (getIdentifiers_fold_snd _ ("", "") Hg) as H2.
  destruct (fold_left getIdentifiers_step _ _) as [ep cl].
  cbn [fst snd] in H1, H2. subst ep cl.
  unfold redirect_url. cbn [String.eqb]. fold identifier_select.
  now rewrite Encode_redirect_values.
Qed.

Lemma RedirectURI_without_endpoint_witness :
  fst (RedirectURI 1 w_empty_xrds "example.com" "https://rp.example" "/cb" st0)
  = Ret ("?" ++ redirect_query identifier_select "https://rp.example" "/cb",
         None).
Proof.
  rewrite (RedirectURI_without_endpoint 1 w_empty_xrds "example.com"
             "https://rp.example" "/cb" st0 "http://example.com" 0%nat
             (snd (discover 1 w_empty_xrds "http://example.com" st0))
             {| body_data := "<xrds"; body_err := None |}).
  - reflexivity.
  - reflexivity.
  - vm_compute. reflexivity.
  - reflexivity.
  - reflexivity.
  - constructor.
  - constructor.
Defined.

(** ** More on [Validate] *)



(** X18.  Whenever the POST gives [Validate] a response, with or without
    an error, [Validate] returns and has closed the body of that response:
    no body is left open that was not open before. *)
Theorem Validate_closes_the_body w values st m r :
  heap st !! values = Some m ->
  url.Get m "openid.op_endpoint" <> "" ->
  url.Get m "openid.mode" = "id_res" ->
  (http w (requests st) (verification_request m) = Ok r
   \/ exists e, http w (requests st) (verification_request m) = Fail (Some r) e) ->
  exists res st',
    Validate w values st = (Ret res, st')
    /\ bodies st' = (bodies st ++ [reply_body r])%list
    /\ closed st' = (closed st ++ [length (bodies st)])%list
    /\ open_bodies st' = open_bodies st.
Proof.
  intros Hm He Hmode Hp. rewrite (Validate_checked _ _ _ _ Hm He Hmode).
  destruct Hp as [-> | [e ->]]; eexists _, _;
    (split; [reflexivity|]); (split; [reflexivity|]); (split; [reflexivity|]);
    exact (open_bodies_closed_again st _ _ _).
Qed.

Lemma Validate_closes_the_body_witness :
  open_bodies (snd (Validate w_confirm 0 (holding assertion))) = [].
Proof.
  destruct (Validate_closes_the_body w_confirm 0%nat (holding assertion)
              assertion
              {| reply_header := ∅;
                 reply_body :=
                   {| body_data := "ns:http://specs.openid.net/auth/2.0"
                                   ++ newline ++ "is_valid:true" ++ newline;
                      body_err := None |} |})
    as (res & st' & H & _ & _ & Ho).
  - reflexivity.
  - vm_compute. discriminate.
  - reflexivity.
  - left. reflexivity.
  - rewrite H. exact Ho.
Defined.

(** X19.  An error that comes with a response, and an error of reading
    the response body, are both returned by [Validate] as they are, with
    [grant] false and an empty [id]. *)
Theorem Validate_passes_errors_on w values st m r e :
  heap st !! values = Some m ->
  url.Get m "openid.op_endpoint" <> "" ->
  url.Get m "openid.mode" = "id_res" ->
  (http w (requests st) (verification_request m) = Fail (Some r) e
   \/ (http w (requests st) (verification_request m) = Ok r
       /\ body_err (reply_body r) = Some e)) ->
  fst (Validate w values st)
  = Ret {| grant := false; id := ""; err := Some e |}.
Proof.
  intros Hm He Hmode Hp. rewrite (Validate_checked _ _ _ _ Hm He Hmode).
  destruct Hp as [-> | [-> ->]]; reflexivity.
Qed.

Lemma Validate_passes_errors_on_witness :
  fst (Validate w_policy 0 (holding assertion))
  = Ret {| grant := false; id := "";
           err := Some (LibError "stopped after 10 redirects") |}
  /\ fst (Validate w_cut_short 0 (holding assertion))
     = Ret {| grant := false; id := "";
              err := Some (LibError "unexpected EOF") |}.
Proof.
  split.
  - apply (Validate_passes_errors_on w_policy 0%nat (holding assertion)
             assertion
             {| reply_header := ∅;
                reply_body := {| body_data := ""; body_err := None |} |}).
    + reflexivity.
    + vm_compute. discriminate.
    + reflexivity.
    + left. reflexivity.
  - apply (Validate_passes_errors_on w_cut_short 0%nat (holding assertion)
             assertion
             {| reply_header := ∅;
                reply_body :=
                  {| body_data := "ns:http";
                     body_err := Some (LibError "unexpected EOF") |} |}).
    + reflexivity.
    + vm_compute. discriminate.
    + reflexivity.
    + right. split; reflexivity.
Defined.

(** X20.  A [nil] parameter map is no panic: [Validate] reads nothing
    from it, returns [NO_OP_ENDPOINT] and never reaches the assignment. *)
Theorem Validate_nil_map w values st :
  heap st !! values = None ->
  Validate w values st = (Ret (failed NO_OP_ENDPOINT), st).
Proof. intros H. apply Validate_no_endpoint. congruence. Qed.

Lemma Validate_nil_map_witness :
  Validate w_confirm 0 st0 = (Ret (failed NO_OP_ENDPOINT), st0).
Proof. exact (Validate_nil_map w_confirm 0%nat st0 eq_refl). Defined.

(** ** More on [keyValueForm] *)

Lemma kv_line_pair p :
  kv_clean p ->
  is_pair (kv_line p) (fst p) (snd p) /\ ~ has_byte "010"%char (kv_line p).
Proof.
  intros (Hc & Hk & Hv). split; [now split|].
  unfold kv_line. rewrite !has_byte_app. intros [H|[H|H]]; try tauto.
  cbn in H. destruct H as [H|[]]. discriminate H.
Qed.

Lemma kv_encode_length l : (length l <= String.length (kv_encode l))%nat.
Proof.
  induction l as [|p l IH]; cbn [kv_encode fold_right length]; [lia|].
  fold (kv_encode l). rewrite !append_length. cbn [String.length newline]. lia.
Qed.

Lemma genSplit_kv_encode l : forall n,
  Forall kv_clean l -> (length l <= n)%nat ->
  strings.genSplit n (kv_encode l) newline = (map kv_line l ++ [""])%list.
Proof.
  induction l as [|p l IH]; intros n Hl Hn.
  - apply genSplit_whole. intros [].
  - apply Forall_cons in Hl as [Hp Hl]. destruct n as [|n]; [cbn in Hn; lia|].
    cbn [kv_encode fold_right]. fold (kv_encode l).
    change (kv_line p ++ newline ++ kv_encode l)
      with (kv_line p ++ String "010"%char (kv_encode l)).
    unfold newline at 1. rewrite genSplit_cut by apply (kv_line_pair p Hp).
    fold newline. rewrite IH; [reflexivity | exact Hl | cbn in Hn; lia].
Qed.

Lemma keyValueForm_fold_pairs l :
  Forall kv_clean l ->
  fold_left keyValueForm_step (map kv_line l) ∅ = list_to_map (rev l).
Proof.
  induction l as [|p l IH] using rev_ind; intros Hl; [reflexivity|].
  apply Forall_app in Hl as [Hl Hp]. apply Forall_inv in Hp.
  rewrite map_app, fold_left_app, rev_unit. cbn [map fold_left].
  rewrite IH by exact Hl.
  rewrite (keyValueForm_step_pair _ _ _ _ (proj1 (kv_line_pair p Hp))).
  now destruct p.
Qed.

(** X21.  Round trip of the line format: a response written one pair per
    line as [k:v], with no newline in any pair and no colon in any key, is
    read back by [keyValueForm] as the map of these pairs, a later pair
    replacing an earlier one of the same key. *)
Theorem keyValueForm_reads_back (l : list (string * string)) :
  Forall kv_clean l ->
  keyValueForm (kv_encode l) = list_to_map (rev l).
Proof.
  intros Hl. unfold keyValueForm, strings.Split. fold newline.
  rewrite genSplit_kv_encode by (exact Hl || apply kv_encode_length).
  rewrite fold_left_app, keyValueForm_fold_pairs by exact Hl.
  cbn [fold_left]. apply keyValueForm_step_skip. intros [].
Qed.

Lemma keyValueForm_reads_back_witness :
  keyValueForm ("ns:http://specs.openid.net/auth/2.0" ++ newline
                ++ "is_valid:false" ++ newline
                ++ "is_valid:true" ++ newline)
  = {[ "ns" := "http://specs.openid.net/auth/2.0"; "is_valid" := "true" ]}.
Proof.
  pose proof (keyValueForm_reads_back
                [("ns", "http://specs.openid.net/auth/2.0");
                 ("is_valid", "false"); ("is_valid", "true")]) as H.
  change (keyValueForm
            (kv_encode
               [("ns", "http://specs.openid.net/auth/2.0");
                ("is_valid", "false"); ("is_valid", "true")])
          = {[ "ns" := "http://specs.openid.net/auth/2.0";
               "is_valid" := "true" ]}).
  rewrite H.
  - vm_compute. reflexivity.
  - repeat constructor; intros Hb; apply Contains_char in Hb; discriminate Hb.
Defined.

(** X22.  Whatever the input, no key of the map [keyValueForm] builds
    holds a colon or a newline, and no value holds a newline; nothing is
    trimmed, so a value may start with a blank or end with a carriage
    return. *)
Theorem keyValueForm_keys_and_values corpus k v :
  keyValueForm corpus !! k = Some v ->
  ~ has_byte ":"%char k /\ ~ has_byte "010"%char k /\ ~ has_byte "010"%char v.
Proof.
  intros H. unfold keyValueForm, strings.Split in H. fold newline in H.
  destruct (genSplit_lines (String.length corpus) corpus (le_n _)) as [_ Hf].
  apply keyValueForm_fold in H as [(pre & x & post & E & [-> Hk] & _)|[H _]];
    [|rewrite lookup_empty in H; discriminate H].
  rewrite E in Hf. apply Forall_app in Hf as [_ Hf]. apply Forall_inv in Hf.
  rewrite !has_byte_app in Hf. tauto.
Qed.

Lemma keyValueForm_keys_and_values_witness :
  keyValueForm ("is_valid: true" ++ String "013"%char newline) !! "is_valid"
  = Some (" true" ++ String "013"%char "")
  /\ ~ has_byte "010"%char (" true" ++ String "013"%char "").
Proof.
  assert (H : keyValueForm ("is_valid: true" ++ String "013"%char newline)
              !! "is_valid" = Some (" true" ++ String "013"%char ""))
    by (vm_compute; reflexivity).
  split; [exact H|].
  apply (keyValueForm_keys_and_values _ _ _ H).
Defined.

(** ** [QueryEscape] *)

Lemma QueryEscape_byte a :
  query_safe (url.upperhex (Z.shiftr (Z.of_N (N_of_ascii a)) 4))
  /\ query_safe (url.upperhex (Z.land (Z.of_N (N_of_ascii a)) 15))
  /\ (url.shouldEscape a = false -> query_safe a).
Proof.
  unfold query_safe.
  destruct a as [[] [] [] [] [] [] [] []];
    (split; [apply Contains_char; vm_compute; reflexivity|]);
    (split; [apply Contains_char; vm_compute; reflexivity|]);
    intros H;
    first [discriminate H | apply Contains_char; vm_compute; reflexivity].
Qed.

(** X23.  What [RedirectURI] appends is safe to put in a query string:
    [QueryEscape] writes only letters, digits and [- _ . ~ % +], so an
    escaped key or value holds no [&], no [=], no [?], no [#] and no
    blank. *)
Theorem QueryEscape_alphabet s :
  (forall c, has_byte c (url.QueryEscape s) -> query_safe c)
  /\ ~ has_byte "&"%char (url.QueryEscape s)
  /\ ~ has_byte "="%char (url.QueryEscape s)
  /\ ~ has_byte "?"%char (url.QueryEscape s)
  /\ ~ has_byte "#"%char (url.QueryEscape s)
  /\ ~ has_byte " "%char (url.QueryEscape s).
Proof.
  assert (Hall : forall c, has_byte c (url.QueryEscape s) -> query_safe c).
  { induction s as [|a s IH]; intros c; [intros []|].
    destruct (QueryEscape_byte a) as (Hhi & Hlo & Hself).
    cbn [url.QueryEscape].
    destruct (Ascii.eqb a " ").
    - intros [<-|H]; [|now apply IH]. apply Contains_char. reflexivity.
    - destruct (url.shouldEscape a).
      + intros [<-|[<-|[<-|H]]]; try assumption; [|now apply IH].
        apply Contains_char. reflexivity.
      + intros [<-|H]; [now apply Hself | now apply IH]. }
  split; [exact Hall|].
  repeat split; intros H; apply Hall, Contains_char in H; discriminate H.
Qed.

(** X24.  When the response to the normalised identifier is neither an
    XRDS document nor HTML and names no other location, [RedirectURI]
    gives up after that one GET with the error "Could not locate Yadis
    document!" and an empty URL; the body that [discover] hands back with
    the error is not closed. *)
Theorem RedirectURI_not_located fuel w identifier realm returnPoint st
    normalized r :
  normalize identifier = Ret normalized ->
  NewRequest_err w normalized = None ->
  http w (requests st) (discovery_request normalized) = Ok r ->
  ~ starts_with "application/xrds+xml" (url.Get (reply_header r) "Content-Type") ->
  ~ starts_with "text/html" (url.Get (reply_header r) "Content-Type") ->
  url.Get (reply_header r) "X-Xrds-Location" = "" ->
  RedirectURI (S fuel) w identifier realm returnPoint st
  = (Ret ("", Some (ErrorsNew "Could not locate Yadis document!")),
     received st (discovery_request normalized) [reply_body r]).
Proof.
  intros Hn Hu Hr Hx Hh Hl.
  rewrite (RedirectURI_run _ _ _ _ _ _ _ Hn), discover_hop, Hu.
  cbv zeta. rewrite Hr, Hl.
  destruct (strings.HasPrefix _ "application/xrds+xml") eqn:E1;
    [destruct Hx; now apply HasPrefix_spec|].
  destruct (strings.HasPrefix _ "text/html") eqn:E2;
    [destruct Hh; now apply HasPrefix_spec|].
  reflexivity.
Qed.

Lemma RedirectURI_not_located_witness :
  exists st',
    RedirectURI 1 w_confirm "example.com" "https://rp.example" "/cb" st0
    = (Ret ("", Some (ErrorsNew "Could not locate Yadis document!")), st')
    /\ length (bodies st') = 1%nat /\ closed st' = [].
Proof.
  eexists. split; [|split].
  - apply (RedirectURI_not_located 0 w_confirm "example.com"
             "https://rp.example" "/cb" st0 "http://example.com"
             {| reply_header := ∅;
                reply_body :=
                  {| body_data := "ns:http://specs.openid.net/auth/2.0"
                                  ++ newline ++ "is_valid:true" ++ newline;
                     body_err := None |} |}).
    + reflexivity.
    + reflexivity.
    + reflexivity.
    + intros [x H]. discriminate H.
    + intros [x H]. discriminate H.
    + reflexivity.
  - reflexivity.
  - reflexivity.
Defined.
